(** * Registration desk: upload, lookup, approval and export (app.py)

    A shallow embedding of the request handlers of [app.py] and the
    properties of the registration store they maintain.

    Conventions of the embedding.
    - A Python [str] is a [string]; each character is read as the code
      point of the same number (0..255).
    - A cell of a data frame row is a [Py.value]; a row turned into a
      dictionary ([row.to_dict()]) is a [gmap string Py.value].
    - The table [registration] is the list of its rows in rowid order.
    - [datetime.utcnow()] is an input of the handlers: the clock belongs
      to the environment.
    - A handler is a function from the store to a response and a store;
      [login_required] wraps it with the session's [admin] flag.
    - The session flushes before a query, so a query sees the rows added
      earlier in the same request.

    The development has two layers.  The first follows a request in
    which every call into a library returns; there the images are kept
    as a map from the name handed to [generate_qr_for_text] to the text
    encoded.  Two calls of the views can raise: the call that makes and
    saves an image (line 121, on the file system) and the lookup by key
    (line 165, on an integer that SQLite cannot hold).  The module
    [Raising] has the views with these calls, on an environment that
    decides which saves return; an exception that leaves a view ends the
    request with HTTP status 500 and the rows of the request are rolled
    back.  The two layers give the same table whenever nothing raises
    ([ingest_agrees]). *)

From stdpp Require Import base strings list gmap fin_maps pretty sorting.
From Stdlib Require Import Ascii.

Local Open Scope Z_scope.

(** ** The Python layer: values, truth, text, whitespace *)

Module Py.

(** The values a cell can hold.  A float is kept by the two things the
    handlers observe of it, [bool(v)] and [str(v)] (so the missing
    cell [nan] is [VFloat true "nan"] and [0.0] is [VFloat false "0.0"]);
    a [datetime], [date] or [time] is kept by its [str(v)]. *)
Inductive value :=
| VNone
| VBool (b : bool)
| VInt (z : Z)
| VFloat (nonzero : bool) (text : string)
| VStr (s : string)
| VTemporal (text : string).

#[global] Instance value_eq_dec : EqDecision value.
Proof. solve_decision. Defined.

Definition nan : value := VFloat true "nan".

(** [bool(v)] *)
Definition truthy (v : value) : bool :=
  match v with
  | VNone => false
  | VBool b => b
  | VInt z => negb (z =? 0)
  | VFloat nz _ => nz
  | VStr s => negb (String.eqb s "")
  | VTemporal _ => true
  end.

(** [str(v)] *)
Definition str (v : value) : string :=
  match v with
  | VNone => "None"
  | VBool true => "True"
  | VBool false => "False"
  | VInt z => pretty z
  | VFloat _ t => t
  | VStr s => s
  | VTemporal t => t
  end.

(** [a or b] *)
Definition or_ (a b : value) : value := if truthy a then a else b.

(** [d.get(k)] *)
Definition get (d : gmap string value) (k : string) : value :=
  default VNone (d !! k).

(** [isinstance(v, (datetime, date, time))] *)
Definition is_temporal (v : value) : bool :=
  match v with VTemporal _ => true | _ => false end.

(** [c.isspace()] for a code point below 256: tab to carriage return,
    the four separators 28..31, space, NEL (133) and the no-break
    space (160). *)
Definition isspace (c : ascii) : bool :=
  let n := N_of_ascii c in
  ((9 <=? n) && (n <=? 13) || (28 <=? n) && (n <=? 32)
   || (n =? 133) || (n =? 160))%N.

(** [s.lstrip()], [s.rstrip()] and [s.strip()] *)
Fixpoint lstrip (s : string) : string :=
  match s with
  | EmptyString => EmptyString
  | String c s' => if isspace c then lstrip s' else s
  end.

Fixpoint rstrip (s : string) : string :=
  match s with
  | EmptyString => EmptyString
  | String c s' =>
      match rstrip s' with
      | EmptyString => if isspace c then EmptyString else String c EmptyString
      | t => String c t
      end
  end.

Definition strip (s : string) : string := rstrip (lstrip s).

(** [c.lower()] on a code point below 256 and [s.lower()] *)
Definition lower_char (c : ascii) : ascii :=
  let n := N_of_ascii c in
  if ((65 <=? n) && (n <=? 90)
      || (192 <=? n) && (n <=? 222) && negb (n =? 215))%N
  then ascii_of_N (n + 32) else c.

Fixpoint lower (s : string) : string :=
  match s with
  | EmptyString => EmptyString
  | String c s' => String (lower_char c) (lower s')
  end.

(** [s.endswith(suffix)] *)
Definition endswith (s suffix : string) : bool :=
  let n := String.length s in
  let k := String.length suffix in
  (k <=? n)%nat && String.eqb (String.substring (n - k) k s) suffix.

(** The first and the last character of a string, as tests. *)
Definition starts_with_space (s : string) : bool :=
  match s with
  | EmptyString => false
  | String c _ => isspace c
  end.

Fixpoint ends_with_space (s : string) : bool :=
  match s with
  | EmptyString => false
  | String c EmptyString => isspace c
  | String _ s' => ends_with_space s'
  end.

End Py.

(** ** [os.path.splitext] (POSIX) *)

Module OsPath.

(** [s.rfind(c)], [-1] when [c] does not occur. *)
Fixpoint rfind_from (c : ascii) (s : string) (i last : Z) : Z :=
  match s with
  | EmptyString => last
  | String a s' => rfind_from c s' (i + 1) (if Ascii.eqb a c then i else last)
  end.

Definition rfind (c : ascii) (s : string) : Z := rfind_from c s 0 (-1).

(** The loop of [genericpath._splitext] that skips the leading dots of
    the file name: is there a character other than the dot at an index
    in [lo, hi)? *)
Definition has_non_dot (p : string) (lo hi : nat) : bool :=
  existsb (fun i => match String.get i p with
                    | Some a => negb (Ascii.eqb a ".")
                    | None => false
                    end)
          (seq lo (hi - lo)).

Definition splitext (p : string) : string * string :=
  let sepIndex := rfind "/" p in
  let dotIndex := rfind "." p in
  if (sepIndex <? dotIndex)
     && has_non_dot p (Z.to_nat (sepIndex + 1)) (Z.to_nat dotIndex)
  then (String.substring 0 (Z.to_nat dotIndex) p,
        String.substring (Z.to_nat dotIndex)
                         (String.length p - Z.to_nat dotIndex) p)
  else (p, "").

(** [os.path.join(a, b)] of [posixpath]: an absolute [b] replaces [a];
    otherwise [b] is appended, after a slash unless [a] is empty or ends
    with one. *)
Definition join (a b : string) : string :=
  match b with
  | String "/" _ => b
  | _ =>
      match a with
      | EmptyString => b
      | _ => if String.eqb (String.substring (String.length a - 1) 1 a) "/"
             then a +:+ b else a +:+ "/" +:+ b
      end
  end.

End OsPath.

(** ** The data model *)

(** [class Registration(db.Model)]: one row of the table.  Timestamps are
    integers (microseconds on the clock's scale). *)
Module Registration.
Record t := mk {
  id : Z;
  regno : string;
  data : gmap string Py.value;
  status : string;
  created_at : Z;
  approved_at : option Z
}.

#[global] Instance eq_dec : EqDecision t.
Proof. solve_decision. Defined.
End Registration.

(** The persistent state of a run in which every save returns: the table
    and, for each file name '<regno>.png' for which an image was made,
    the text of the last image made for that name. *)
Record store := Store {
  table : list Registration.t;
  qrcodes : gmap string string
}.

(** [ALLOWED_EXT] *)
Definition ALLOWED_EXT : gset string := {[ ".xlsx"; ".xls"; ".csv" ]}.

(** ** Queries on the table *)

(** [Registration.query.filter_by(regno=regno)] *)
Definition filter_by_regno (regno : string) (tbl : list Registration.t)
  : list Registration.t :=
  filter (fun r => Registration.regno r = regno) tbl.

(** [Registration.query.filter_by(status=status)] *)
Definition filter_by_status (status : string) (tbl : list Registration.t)
  : list Registration.t :=
  filter (fun r => Registration.status r = status) tbl.

(** [.first()] and [.count()] *)
Definition first {A} (q : list A) : option A := head q.
Definition count {A} (q : list A) : nat := length q.

(** [Registration.query.get(rec_id)] for a key that SQLite can hold; the
    call with its bound is [Raising.query_get]. *)
Definition query_get (rec_id : Z) (tbl : list Registration.t)
  : option Registration.t :=
  head (filter (fun r => Registration.id r = rec_id) tbl).

(** The integer primary key of a new row: one more than the largest in
    use, and 1 in an empty table. *)
Definition max_id (tbl : list Registration.t) : Z :=
  foldr (fun r m => Z.max (Registration.id r) m) 0 tbl.

Definition next_id (tbl : list Registration.t) : Z := max_id tbl + 1.

(** ** Helpers of [app.py] *)

(** [allowed_file(filename)] *)
Definition allowed_file (filename : string) : bool :=
  let ext := snd (OsPath.splitext (Py.lower filename)) in
  bool_decide (ext ∈ ALLOWED_EXT).

(** [generate_qr_for_text(text, filename_path)] when it returns: the
    image of [text] is the last one made for that name.  The call on the
    file system, which can raise, is [Raising.generate_qr_for_text]. *)
Definition generate_qr_for_text (text filename_path : string)
    (files : gmap string string) : gmap string string :=
  <[filename_path := text]> files.

(** ** Responses *)

(** Where a redirect goes: [url_for(endpoint)], with the [next] argument
    of the login redirect, or [request.url]. *)
Inductive target :=
| UrlFor (endpoint : string) (next : option string)
| RequestUrl.

(** The value of a key of a JSON body: a scalar or a record's [data]. *)
Inductive jvalue :=
| JV (v : Py.value)
| JDict (d : gmap string Py.value).

(** A cell of a frame that [pd.DataFrame] builds from dictionaries: the
    value of the dictionary as it is, or the [float64] of an [int] in a
    column that pandas types as [float64]. *)
Inductive cell :=
| Cell (v : Py.value)
| Float64 (z : Z).

(** A response.  [Redirect] carries the message flashed by the request,
    as (category, message); [Json] the status code and the body of
    [jsonify]; [SendFile] the download name, the MIME type and the data
    frame written to the workbook; [Render] the template and the numbers
    and rows passed to it. *)
Inductive response :=
| Redirect (to : target) (flashed : option (string * string))
| Render (template : string) (counts : list (string * nat))
         (rows : list Registration.t)
| Json (code : nat) (body : list (string * jvalue))
| SendFile (download_name mimetype : string)
           (sheet : list (gmap string cell)).

(** [@login_required]: without the session's [admin] flag the request is
    redirected to the login page and the view is not run. *)
Definition login_required (admin : bool) (path : string)
    (view : store -> response * store) : store -> response * store :=
  fun st =>
    if admin then view st
    else (Redirect (UrlFor "admin_login" (Some path)) None, st).

(** ** The upload: [POST /upload] *)

(** What the parsing library makes of the uploaded bytes: the exception
    text when the reader raises, the data frame otherwise, as the list
    of its rows, each already a dictionary ([row.to_dict()]). *)
Inductive parsed :=
| Raises (e : string)
| Frame (df : list (gmap string Py.value)).

(** The uploaded file as the view sees it: the client's file name, the
    name [secure_filename] makes of it, and what [pd.read_csv] and
    [pd.read_excel] return on its content. *)
Record FileStorage := {
  filename : string;
  secure_filename : string;
  read_csv : parsed;
  read_excel : parsed
}.

Inductive method := GET | POST.

(** Lines 106-108: every [datetime], [date] or [time] cell becomes its
    text. *)
Definition to_text (v : Py.value) : Py.value :=
  if Py.is_temporal v then Py.VStr (Py.str v) else v.

(** Line 110: the registration identifier of a record. *)
Definition regno_of (record : gmap string Py.value) : string :=
  Py.strip
    (Py.str
       (Py.or_ (Py.get record "Reg No")
          (Py.or_ (Py.get record "regno")
             (Py.or_ (Py.get record "ID") (Py.VStr ""))))).

(** A new row as the session inserts it: the defaults of the columns
    fill in the key, the creation time and the absent approval time. *)
Definition new_registration (tbl : list Registration.t) (now : Z)
    (regno : string) (data : gmap string Py.value) (status : string)
  : Registration.t :=
  Registration.mk (next_id tbl) regno data status now None.

(** The body of the loop over [df.iterrows()], lines 103-130.  The
    accumulator is the store and [created]; [clock k] is the reading of
    [datetime.utcnow] for the row inserted when [created] is [k].  The
    query of line 115 flushes the session first, so it sees the rows
    added earlier in the same request. *)
Definition upload_row (clock : nat -> Z) (acc : store * nat)
    (row : gmap string Py.value) : store * nat :=
  let '(st, created) := acc in
  let record := to_text <$> row in
  let regno := regno_of record in
  if decide (regno = "") then acc
  else
    match first (filter_by_regno regno (table st)) with
    | Some _ => acc
    | None =>
        let qr_filename := regno +:+ ".png" in
        let files := generate_qr_for_text regno qr_filename (qrcodes st) in
        let reg := new_registration (table st) (clock created)
                                    regno record "pending" in
        (Store (table st ++ [reg]) files, S created)
    end.

(** Lines 101-132: the whole loop. *)
Definition ingest (clock : nat -> Z) (df : list (gmap string Py.value))
    (st : store) : store * nat :=
  foldl (upload_row clock) (st, 0%nat) df.

(** The summary flashed at line 133. *)
Definition processed_message (created : nat) : string :=
  "Processed file. " +:+ pretty created +:+ " records added to pending.".

(** Line 96: the reader is chosen by the extension. *)
Definition read_file (f : FileStorage) : parsed :=
  if Py.endswith (Py.lower (secure_filename f)) ".csv"
  then read_csv f else read_excel f.

(** The view function of [/upload], before [@login_required]. *)
Definition upload_view (m : method) (file : option FileStorage)
    (clock : nat -> Z) (st : store) : response * store :=
  match m with
  | GET => (Render "upload.html" [] [], st)
  | POST =>
      match file with
      | None =>
          (Redirect RequestUrl (Some ("warning", "No file uploaded")), st)
      | Some f =>
          if decide (filename f = "") then
            (Redirect RequestUrl (Some ("warning", "No file uploaded")), st)
          else if negb (allowed_file (secure_filename f)) then
            (Redirect RequestUrl
               (Some ("warning",
                      "File type not allowed. Use .xlsx, .xls, .csv")), st)
          else
            match read_file f with
            | Raises e =>
                (Redirect RequestUrl
                   (Some ("danger", "Error reading file: " +:+ e)), st)
            | Frame df =>
                let '(st', created) := ingest clock df st in
                (Redirect RequestUrl
                   (Some ("success", processed_message created)), st')
            end
      end
  end.

Definition upload (admin : bool) (m : method) (file : option FileStorage)
    (clock : nat -> Z) : store -> response * store :=
  login_required admin "/upload" (upload_view m file clock).

(** ** Lookup: [GET /api/get_by_regno/<regno>] *)

Definition not_found : response :=
  Json 404 [("error", JV (Py.VStr "not found"))].

Definition api_get_by_regno_view (regno : string) (st : store)
  : response * store :=
  match first (filter_by_regno regno (table st)) with
  | None => (not_found, st)
  | Some rec =>
      (Json 200 [("id", JV (Py.VInt (Registration.id rec)));
                 ("data", JDict (Registration.data rec));
                 ("status", JV (Py.VStr (Registration.status rec)))], st)
  end.

Definition api_get_by_regno (admin : bool) (regno : string)
  : store -> response * store :=
  login_required admin ("/api/get_by_regno/" +:+ regno)
                 (api_get_by_regno_view regno).

(** ** Approval: [POST /api/approve/<int:rec_id>] *)

(** Lines 168-169 on one row. *)
Definition approve (now : Z) (r : Registration.t) : Registration.t :=
  Registration.mk (Registration.id r) (Registration.regno r)
                  (Registration.data r) "approved"
                  (Registration.created_at r) (Some now).

(** The commit of line 170: the row with the primary key [rec_id] is
    updated, the other rows are not written. *)
Definition update_row (rec_id : Z) (now : Z) (tbl : list Registration.t)
  : list Registration.t :=
  (fun r => if decide (Registration.id r = rec_id) then approve now r else r)
    <$> tbl.

Definition api_approve_view (rec_id : Z) (now : Z) (st : store)
  : response * store :=
  match query_get rec_id (table st) with
  | None => (not_found, st)
  | Some _ =>
      (Json 200 [("ok", JV (Py.VBool true))],
       Store (update_row rec_id now (table st)) (qrcodes st))
  end.

(** The gate is given the path with the number in decimal; the path as
    the client typed it is an argument of [Raising.api_approve]. *)
Definition api_approve (admin : bool) (rec_id : Z) (now : Z)
  : store -> response * store :=
  login_required admin ("/api/approve/" +:+ pretty rec_id)
                 (api_approve_view rec_id now).

(** ** Export: [GET /admin/download/export] *)

(** [pd.DataFrame(records)] for a list of dictionaries.  The columns are
    the keys of all of them; a column is first filled with the values,
    [nan] where a dictionary has no such key, and then typed by
    [lib.maybe_convert_objects], which looks at the kinds of values it
    has seen (pandas 1 and 2). *)
Record seen := Seen {
  null_ : bool;     (* a [None] *)
  nan_ : bool;      (* a float [nan] *)
  bool_ : bool;
  float_ : bool;    (* a float other than [nan] *)
  int_ : bool;
  uint_ : bool;     (* an int above the largest [int64] *)
  sint_ : bool;     (* a negative int *)
  object_ : bool    (* a string, or anything that keeps the column as it is *)
}.

Definition is_nan (v : Py.value) : bool :=
  match v with
  | Py.VFloat _ t => String.eqb t "nan"
  | _ => false
  end.

(** One step of the scan of a column.  The range of an int is looked at
    only while no [None] has been seen. *)
Definition saw (s : seen) (v : Py.value) : seen :=
  let '(Seen null nan boo flo int uint sint obj) := s in
  match v with
  | Py.VNone => Seen true nan boo flo int uint sint obj
  | Py.VBool _ => Seen null nan true flo int uint sint obj
  | Py.VFloat _ _ =>
      if is_nan v then Seen null true boo flo int uint sint obj
      else Seen null nan boo true int uint sint obj
  | Py.VInt z =>
      if null then Seen null nan boo flo true uint sint obj
      else
        let uint' := uint || ((2 ^ 63 <=? z) && (z <? 2 ^ 64)) in
        let sint' := sint || ((- 2 ^ 63 <=? z) && (z <? 0)) in
        Seen null nan boo flo true uint' sint'
             (obj || (uint' && sint') || (2 ^ 64 <=? z) || (z <? - 2 ^ 63))
  | Py.VStr _ | Py.VTemporal _ => Seen null nan boo flo int uint sint true
  end.

Definition scan (column : list Py.value) : seen :=
  foldl saw (Seen false false false false false false false false) column.

(** The column becomes [float64] when it holds numbers and [None] only
    and has a float, a [nan], or an int beside a [None]; it is left as
    it is otherwise (all ints, all [None], or any string or bool). *)
Definition typed_float64 (s : seen) : bool :=
  negb (object_ s) && negb (bool_ s)
  && (nan_ s || float_ s || (null_ s && int_ s)).

(** A value in a column of type [float64]. *)
Definition as_float64 (v : Py.value) : cell :=
  match v with
  | Py.VNone => Cell Py.nan
  | Py.VInt z => Float64 z
  | _ => Cell v
  end.

Definition typed_column (column : list Py.value) : list cell :=
  if typed_float64 (scan column) then as_float64 <$> column
  else Cell <$> column.

Definition DataFrame (records : list (gmap string Py.value))
  : list (gmap string cell) :=
  let columns : gset string := ⋃ (dom <$> records) in
  let column k := (fun d => default Py.nan (d !! k)) <$> records in
  imap (fun i _ =>
          map_imap (fun k _ => typed_column (column k) !! i)
                   (gset_to_gmap () columns))
       records.

Definition xlsx_mimetype : string :=
  "application/vnd.openxmlformats-officedocument.spreadsheetml.sheet".

Definition admin_download_export_view (st : store) : response * store :=
  let docs := filter_by_status "approved" (table st) in
  match docs with
  | [] =>
      (Redirect (UrlFor "admin_download_page" None)
         (Some ("warning", "No approved records to download")), st)
  | _ =>
      let records := Registration.data <$> docs in
      (SendFile "approved_records.xlsx" xlsx_mimetype (DataFrame records), st)
  end.

Definition admin_download_export (admin : bool)
  : store -> response * store :=
  login_required admin "/admin/download/export" admin_download_export_view.

(** ** The pages with counts *)

(** [order_by(Registration.created_at.desc())] *)
Definition newer_eq (a b : Registration.t) : Prop :=
  Registration.created_at b <= Registration.created_at a.

#[global] Instance newer_eq_dec : RelDecision newer_eq.
Proof. intros a b; unfold newer_eq; apply _. Defined.

Definition newest_first (q : list Registration.t) : list Registration.t :=
  merge_sort newer_eq q.

Definition admin_dashboard_view (st : store) : response * store :=
  let pending_count := count (filter_by_status "pending" (table st)) in
  let approved_count := count (filter_by_status "approved" (table st)) in
  let recent_pending :=
    take 10 (newest_first (filter_by_status "pending" (table st))) in
  (Render "admin_dashboard.html"
          [("pending_count", pending_count);
           ("approved_count", approved_count)]
          recent_pending, st).

Definition admin_dashboard (admin : bool) : store -> response * store :=
  login_required admin "/admin/dashboard" admin_dashboard_view.

Definition admin_download_page_view (st : store) : response * store :=
  let approved_count := count (filter_by_status "approved" (table st)) in
  (Render "admin_download.html" [("approved_count", approved_count)] [], st).

Definition admin_download_page (admin : bool) : store -> response * store :=
  login_required admin "/admin/download" admin_download_page_view.

(** ** Requests and the states they reach *)

(** The requests that reach a handler, each with the session's [admin]
    flag and the inputs of the handler. *)
Inductive request :=
| ReqUpload (admin : bool) (m : method) (file : option FileStorage)
            (clock : nat -> Z)
| ReqGetByRegno (admin : bool) (regno : string)
| ReqApprove (admin : bool) (rec_id : Z) (now : Z)
| ReqExport (admin : bool)
| ReqDashboard (admin : bool)
| ReqDownloadPage (admin : bool).

Definition handle (rq : request) : store -> response * store :=
  match rq with
  | ReqUpload admin m file clock => upload admin m file clock
  | ReqGetByRegno admin regno => api_get_by_regno admin regno
  | ReqApprove admin rec_id now => api_approve admin rec_id now
  | ReqExport admin => admin_download_export admin
  | ReqDashboard admin => admin_dashboard admin
  | ReqDownloadPage admin => admin_download_page admin
  end.

Definition step (st : store) (rq : request) : store := snd (handle rq st).

Definition run (rqs : list request) (st : store) : store := foldl step st rqs.

(** [db.create_all()] on a new database leaves an empty table; the
    folder may hold anything. *)
Inductive reachable : store -> Prop :=
| reachable_init files : reachable (Store [] files)
| reachable_step st rq : reachable st -> reachable (step st rq).

(** ** The views with the calls that raise *)

(** The environment of the process: the directory [UPLOAD_FOLDER] of
    line 15, and the file system and the image library as far as the
    upload meets them: whether the call
    [generate_qr_for_text(text, filename_path)] returns, that is whether
    [qrcode.make(text)] and [img.save(filename_path)] both do, when it
    is made after the given saves. *)
Record environment := Environment {
  UPLOAD_FOLDER : string;
  saves_image : list (string * string) -> string -> string -> bool
}.

(** What the server sends for a request: the response of the view, or
    the page of HTTP status 500 when an exception leaves the view. *)
Inductive answer :=
| Answer (r : response)
| InternalServerError.

Module Raising.

(** The persistent state: the committed rows of the table, and the
    calls of [generate_qr_for_text] that returned, oldest first, each
    with the path it wrote and the text it encoded. *)
Record world := World {
  rows : list Registration.t;
  saved : list (string * string)
}.

(** The table of a world, for the views that only read the table. *)
Definition as_store (w : world) : store := Store (rows w) ∅.

(** [@login_required], on any state; [path] is [request.path] as the
    client typed it. *)
Definition login_required {S} (admin : bool) (path : string)
    (view : S -> answer * S) : S -> answer * S :=
  fun s =>
    if admin then view s
    else (Answer (Redirect (UrlFor "admin_login" (Some path)) None), s).

(** [generate_qr_for_text(text, filename_path)], lines 51-54: [None]
    when one of the two calls raises. *)
Definition generate_qr_for_text (E : environment)
    (text filename_path : string) (disk : list (string * string))
  : option (list (string * string)) :=
  if saves_image E disk text filename_path
  then Some (disk ++ [(filename_path, text)])
  else None.

(** How the loop of lines 101-130 ends: it has gone through the frame,
    with the rows of the session, the saves and [created]; or a save
    has raised, after the saves made until then. *)
Inductive looped :=
| Finished (tbl : list Registration.t) (disk : list (string * string))
           (created : nat)
| Raised (disk : list (string * string)).

(** Lines 101-130, from the rows [tbl] that the session holds, the saves
    [disk] and the count [created]. *)
Fixpoint ingest (E : environment) (clock : nat -> Z)
    (df : list (gmap string Py.value)) (tbl : list Registration.t)
    (disk : list (string * string)) (created : nat) : looped :=
  match df with
  | [] => Finished tbl disk created
  | row :: df' =>
      let record := to_text <$> row in
      let regno := regno_of record in
      if decide (regno = "") then ingest E clock df' tbl disk created
      else
        match first (filter_by_regno regno tbl) with
        | Some _ => ingest E clock df' tbl disk created
        | None =>
            let qr_filename := regno +:+ ".png" in
            let qr_path := OsPath.join (UPLOAD_FOLDER E) qr_filename in
            match generate_qr_for_text E regno qr_path disk with
            | None => Raised disk
            | Some disk' =>
                let reg := new_registration tbl (clock created)
                                            regno record "pending" in
                ingest E clock df' (tbl ++ [reg]) disk' (S created)
            end
        end
  end.

(** The view function of [/upload].  When the loop finishes, line 132
    commits its rows; when a save raises, the request ends with status
    500, the rows of the request are rolled back and the images saved
    before stay. *)
Definition upload_view (E : environment) (m : method)
    (file : option FileStorage) (clock : nat -> Z) (w : world)
  : answer * world :=
  match m with
  | GET => (Answer (Render "upload.html" [] []), w)
  | POST =>
      match file with
      | None =>
          (Answer (Redirect RequestUrl
                     (Some ("warning", "No file uploaded"))), w)
      | Some f =>
          if decide (filename f = "") then
            (Answer (Redirect RequestUrl
                       (Some ("warning", "No file uploaded"))), w)
          else if negb (allowed_file (secure_filename f)) then
            (Answer (Redirect RequestUrl
               (Some ("warning",
                      "File type not allowed. Use .xlsx, .xls, .csv"))), w)
          else
            match read_file f with
            | Raises e =>
                (Answer (Redirect RequestUrl
                   (Some ("danger", "Error reading file: " +:+ e))), w)
            | Frame df =>
                match ingest E clock df (rows w) (saved w) 0%nat with
                | Finished tbl disk created =>
                    (Answer (Redirect RequestUrl
                       (Some ("success", processed_message created))),
                     World tbl disk)
                | Raised disk => (InternalServerError, World (rows w) disk)
                end
            end
      end
  end.

Definition upload (E : environment) (admin : bool) (m : method)
    (file : option FileStorage) (clock : nat -> Z)
  : world -> answer * world :=
  login_required admin "/upload" (upload_view E m file clock).

(** The integers of SQLite's INTEGER. *)
Definition sqlite_integer (z : Z) : bool :=
  (- 2 ^ 63 <=? z) && (z <? 2 ^ 63).

(** [Registration.query.get(rec_id)]: the driver raises [OverflowError]
    when it binds an integer that SQLite cannot hold ([None] here). *)
Definition query_get (rec_id : Z) (tbl : list Registration.t)
  : option (option Registration.t) :=
  if sqlite_integer rec_id then Some (query_get rec_id tbl) else None.

(** The view function of [/api/approve/<int:rec_id>]. *)
Definition api_approve_view (rec_id : Z) (now : Z) (w : world)
  : answer * world :=
  match query_get rec_id (rows w) with
  | None => (InternalServerError, w)
  | Some None => (Answer not_found, w)
  | Some (Some _) =>
      (Answer (Json 200 [("ok", JV (Py.VBool true))]),
       World (update_row rec_id now (rows w)) (saved w))
  end.

(** [path] is the path as typed, of which the converter of the route
    has made [rec_id]. *)
Definition api_approve (admin : bool) (path : string) (rec_id : Z) (now : Z)
  : world -> answer * world :=
  login_required admin path (api_approve_view rec_id now).

(** What a request leaves of a world.  The other views write nothing. *)
Definition step (E : environment) (w : world) (rq : request) : world :=
  match rq with
  | ReqUpload admin m file clock => snd (upload E admin m file clock w)
  | ReqApprove admin rec_id now =>
      if admin then snd (api_approve_view rec_id now w) else w
  | _ => w
  end.

(** [db.create_all()] on a new database leaves an empty table; any
    saves may have been made before. *)
Inductive reachable (E : environment) : world -> Prop :=
| reachable_init disk : reachable E (World [] disk)
| reachable_step w rq : reachable E w -> reachable E (step E w rq).

(** The save that the upload makes for an identifier. *)
Definition image_of (E : environment) (regno : string) : string * string :=
  (OsPath.join (UPLOAD_FOLDER E) (regno +:+ ".png"), regno).

End Raising.

(** ** Notions the statements use *)

(** The identifiers of the rows of a frame, in order. *)
Definition identifiers (df : list (gmap string Py.value)) : list string :=
  (fun row => regno_of (to_text <$> row)) <$> df.

Definition stored_regnos (st : store) : list string :=
  Registration.regno <$> table st.

(** Row [i] of a file counts when its identifier is not empty, is not
    in the store already and is not the identifier of an earlier row. *)
Definition counts_at (stored ids : list string) (i : nat) : Prop :=
  exists r, ids !! i = Some r /\ r <> "" /\ (r ∉ stored) /\ (r ∉ take i ids).

#[global] Instance counts_at_dec stored ids i : Decision (counts_at stored ids i).
Proof.
  unfold counts_at. destruct (ids !! i) as [r|] eqn:E.
  - destruct (decide (r <> "" /\ (r ∉ stored) /\ (r ∉ take i ids))) as [H|H].
    + left. exists r. tauto.
    + right. intros (r' & Hr & H'). simplify_eq. tauto.
  - right. intros (r' & Hr & _). discriminate.
Defined.

(** The rows that count, by index, and their identifiers. *)
Definition counted_rows (stored ids : list string) : list nat :=
  filter (counts_at stored ids) (seq 0 (length ids)).

Definition counted_ids (stored ids : list string) : list string :=
  omap (fun i => ids !! i) (counted_rows stored ids).

(** An upload that passes the checks of lines 86-99 with the frame [df]. *)
Definition valid_upload (f : FileStorage) (df : list (gmap string Py.value))
  : Prop :=
  filename f <> "" /\ allowed_file (secure_filename f) = true
  /\ read_file f = Frame df.

(** The shape of a row of the table. *)
Definition is_pending (r : Registration.t) : Prop :=
  Registration.status r = "pending" /\ Registration.approved_at r = None.

Definition is_approved (r : Registration.t) : Prop :=
  Registration.status r = "approved" /\ is_Some (Registration.approved_at r).

Definition trimmed (s : string) : Prop :=
  Py.starts_with_space s = false /\ Py.ends_with_space s = false.

(** The images of a list of identifiers, saved one after the other. *)
Definition save_images (ids : list string) (files : gmap string string)
  : gmap string string :=
  foldl (fun m r => generate_qr_for_text r (r +:+ ".png") m) files ids.

(** Row [r] of the table was made from row [i] of the frame [df]. *)
Definition made_from (df : list (gmap string Py.value))
    (r : Registration.t) (i : nat) : Prop :=
  exists row, df !! i = Some row
    /\ Registration.data r = to_text <$> row
    /\ Registration.regno r = regno_of (to_text <$> row).






(** ** A worked example *)

(** The frame of a file of three rows: a record, a second row with the
    same identifier, and a row whose identifier is a cell of blanks. *)
Definition scenario_rows : list (gmap string Py.value) :=
  [ {[ "Reg No" := Py.VStr "A1"; "Name" := Py.VStr "Alice" ]};
    {[ "Reg No" := Py.VStr "A1"; "Name" := Py.VStr "AliceDup" ]};
    {[ "Reg No" := Py.VStr "  "; "Name" := Py.VStr "NoId" ]} ].

Definition scenario_file : FileStorage :=
  {| filename := "list.csv";
     secure_filename := "list.csv";
     read_csv := Frame scenario_rows;
     read_excel := Raises "File is not a zip file" |}.

Definition scenario_clock (k : nat) : Z := 1000 + Z.of_nat k.

Definition empty_store : store := Store [] ∅.

Definition alice : Registration.t :=
  Registration.mk 1 "A1"
    {[ "Reg No" := Py.VStr "A1"; "Name" := Py.VStr "Alice" ]}
    "pending" 1000 None.

Definition after_upload : store :=
  step empty_store (ReqUpload true POST (Some scenario_file) scenario_clock).

Definition after_approval : store :=
  step after_upload (ReqApprove true 1 2000).


(** An environment: the application runs from [/srv/app]; the folder of
    the images has no directory [A], so the image of 'A/1', whose path
    is [/srv/app/static/qrcodes/A/1.png], cannot be saved; every other
    save returns. *)
Definition scenario_environment : environment :=
  Environment "/srv/app/static/qrcodes"
              (fun _ text _ => negb (String.eqb text "A/1")).

Definition empty_world : Raising.world := Raising.World [] [].

Definition world_after_upload : Raising.world :=
  Raising.step scenario_environment empty_world
               (ReqUpload true POST (Some scenario_file) scenario_clock).

(** A file whose second identifier has a slash. *)
Definition slash_rows : list (gmap string Py.value) :=
  [ {[ "Reg No" := Py.VStr "B7"; "Name" := Py.VStr "Bob" ]};
    {[ "Reg No" := Py.VStr "A/1"; "Name" := Py.VStr "Ann" ]} ].

Definition slash_file : FileStorage :=
  {| filename := "slash.csv";
     secure_filename := "slash.csv";
     read_csv := Frame slash_rows;
     read_excel := Raises "File is not a zip file" |}.



(** Two files with different columns, uploaded one after the other, and
    both records approved. *)
Definition seats_rows : list (gmap string Py.value) :=
  [ {[ "Reg No" := Py.VStr "S1"; "Seat" := Py.VInt 7 ]} ].

Definition seats_file : FileStorage :=
  {| filename := "seats.csv";
     secure_filename := "seats.csv";
     read_csv := Frame seats_rows;
     read_excel := Raises "File is not a zip file" |}.

Definition names_rows : list (gmap string Py.value) :=
  [ {[ "Reg No" := Py.VStr "N1" ]} ].

Definition names_file : FileStorage :=
  {| filename := "names.csv";
     secure_filename := "names.csv";
     read_csv := Frame names_rows;
     read_excel := Raises "File is not a zip file" |}.

Definition seat_holder : Registration.t :=
  Registration.mk 1 "S1" {[ "Reg No" := Py.VStr "S1"; "Seat" := Py.VInt 7 ]}
                  "approved" 1000 (Some 2000).

Definition name_holder : Registration.t :=
  Registration.mk 2 "N1" {[ "Reg No" := Py.VStr "N1" ]}
                  "approved" 1000 (Some 2001).

Definition two_approved : store :=
  run [ReqUpload true POST (Some seats_file) scenario_clock;
       ReqUpload true POST (Some names_file) scenario_clock;
       ReqApprove true 1 2000; ReqApprove true 2 2001] empty_store.

(** ** The session: configuration, login, logout and the routes *)

(** [os.environ.get(k, d)] *)
Definition environ_get (env : gmap string string) (k d : string) : string :=
  default d (env !! k).

(** Lines 13-14. *)
Definition ADMIN_USER (env : gmap string string) : string :=
  environ_get env "ADMIN_USER" "admin".

Definition ADMIN_PASS (env : gmap string string) : string :=
  environ_get env "ADMIN_PASS" "password".

(** The session cookie, by the one key the application keeps in it:
    [session.get('admin')]. *)
Module Session.
Record t := mk { admin : bool }.
End Session.

(** What a view that works on the session gives back: the call of
    [flash] it made, as (category, message), its response and the
    session it leaves. *)
Record outcome := Outcome {
  flashed : option (string * string);
  reply : response;
  session : Session.t
}.

(** [request.form.get(k, '')] *)
Definition form_get (form : gmap string string) (k : string) : string :=
  default "" (form !! k).

(** [index], lines 57-59. *)
Definition index : response := Redirect (UrlFor "upload" None) None.

(** [admin_login], lines 61-73. *)
Definition admin_login (env : gmap string string) (sess : Session.t)
    (m : method) (form : gmap string string) : outcome :=
  if Session.admin sess then
    Outcome None (Redirect (UrlFor "admin_dashboard" None) None) sess
  else
    match m with
    | POST =>
        let username := form_get form "username" in
        let password := form_get form "password" in
        if decide (username = ADMIN_USER env /\ password = ADMIN_PASS env)
        then
          Outcome (Some ("success", "Logged in as admin"))
                  (Redirect (UrlFor "admin_dashboard" None)
                            (Some ("success", "Logged in as admin")))
                  (Session.mk true)
        else
          Outcome (Some ("danger", "Invalid credentials"))
                  (Render "login.html" [] []) sess
    | GET => Outcome None (Render "login.html" [] []) sess
    end.

(** [admin_logout], lines 75-79. *)
Definition admin_logout (sess : Session.t) : outcome :=
  Outcome (Some ("info", "Logged out"))
          (Redirect (UrlFor "admin_login" None) (Some ("info", "Logged out")))
          (Session.mk false).

(** [admin_scan], lines 147-150. *)
Definition admin_scan_view (st : store) : response * store :=
  (Render "admin_scan.html" [] [], st).

Definition admin_scan (admin : bool) : store -> response * store :=
  login_required admin "/admin/scan" admin_scan_view.

(** A call of a route by a browser: the inputs of the view, without the
    session, which the browser sends along. *)
Inductive call :=
| CallIndex
| CallLogin (m : method) (form : gmap string string)
| CallLogout
| CallScan
| CallUpload (m : method) (file : option FileStorage) (clock : nat -> Z)
| CallGetByRegno (regno : string)
| CallApprove (rec_id : Z) (now : Z)
| CallExport
| CallDashboard
| CallDownloadPage.

(** The application on one call: the response, the session and the
    store it leaves. *)
Definition serve (env : gmap string string) (c : call)
    (sess : Session.t) (st : store) : response * Session.t * store :=
  let gated (h : bool -> store -> response * store) :=
    let '(r, st') := h (Session.admin sess) st in (r, sess, st') in
  match c with
  | CallIndex => (index, sess, st)
  | CallLogin m form =>
      let o := admin_login env sess m form in (reply o, session o, st)
  | CallLogout =>
      let o := admin_logout sess in (reply o, session o, st)
  | CallScan => gated admin_scan
  | CallUpload m file clock => gated (fun a => upload a m file clock)
  | CallGetByRegno regno => gated (fun a => api_get_by_regno a regno)
  | CallApprove rec_id now => gated (fun a => api_approve a rec_id now)
  | CallExport => gated admin_download_export
  | CallDashboard => gated admin_dashboard
  | CallDownloadPage => gated admin_download_page
  end.

(** A browser's calls one after the other, from a session and a store. *)
Definition serve_all (env : gmap string string) (cs : list call)
    (sess : Session.t) (st : store) : Session.t * store :=
  foldl (fun '(sess, st) c => let '(_, sess', st') := serve env c sess st in
                              (sess', st'))
        (sess, st) cs.

(** A call that posts the configured credentials to the login form. *)
Definition posts_credentials (env : gmap string string) (c : call) : Prop :=
  match c with
  | CallLogin POST form =>
      form_get form "username" = ADMIN_USER env
      /\ form_get form "password" = ADMIN_PASS env
  | _ => False
  end.

(** The worked example, continued: an environment that sets nothing, a
    session that is not admin, and two login forms. *)
Definition scenario_env : gmap string string := ∅.

Definition anonymous : Session.t := Session.mk false.

Definition good_form : gmap string string :=
  {[ "username" := "admin"; "password" := "password" ]}.

Definition bad_form : gmap string string :=
  {[ "username" := "admin"; "password" := "guess" ]}.

(** The routes behind [@login_required], each with the path that the
    views above hand to the gate. *)
Definition gated_path (c : call) : option string :=
  match c with
  | CallIndex | CallLogin _ _ | CallLogout => None
  | CallScan => Some "/admin/scan"
  | CallUpload _ _ _ => Some "/upload"
  | CallGetByRegno regno => Some ("/api/get_by_regno/" +:+ regno)
  | CallApprove rec_id _ => Some ("/api/approve/" +:+ pretty rec_id)
  | CallExport => Some "/admin/download/export"
  | CallDashboard => Some "/admin/dashboard"
  | CallDownloadPage => Some "/admin/download"
  end.

(** * Properties *)

(** ** The Python layer on examples *)

Example strip_example :
  Py.strip "  A1 " = "A1" /\ Py.strip "   " = ""
  /\ Py.str (Py.VInt (-12)) = "-12"
  /\ Py.endswith "a.CSV" ".csv" = false
  /\ Py.endswith (Py.lower "a.CSV") ".csv" = true.
Proof. repeat split; vm_compute; reflexivity. Qed.

Example splitext_example :
  OsPath.splitext "list.final.xlsx" = ("list.final", ".xlsx")
  /\ OsPath.splitext ".csv" = (".csv", "")
  /\ OsPath.splitext "plain" = ("plain", "").
Proof. repeat split; vm_compute; reflexivity. Qed.

Example allowed_file_example :
  allowed_file "list.CSV" = true /\ allowed_file "list.xls" = true
  /\ allowed_file "list.txt" = false /\ allowed_file "csv" = false.
Proof. repeat split; vm_compute; reflexivity. Qed.

(** ** The gate *)

Lemma login_required_admin path view st :
  login_required true path view st = view st.
Proof. reflexivity. Qed.

Lemma login_required_anonymous path view st :
  login_required false path view st
  = (Redirect (UrlFor "admin_login" (Some path)) None, st).
Proof. reflexivity. Qed.

(** ** Queries *)

Lemma query_get_Some rec_id tbl rec :
  query_get rec_id tbl = Some rec ->
  rec ∈ tbl /\ Registration.id rec = rec_id.
Proof.
  unfold query_get. intros H.
  apply head_Some_elem_of, list_elem_of_filter in H. tauto.
Qed.

Lemma query_get_None rec_id tbl :
  query_get rec_id tbl = None <->
  forall r, r ∈ tbl -> Registration.id r <> rec_id.
Proof.
  unfold query_get. rewrite head_None. split.
  - intros H r Hr Hid. exact (filter_nil_not_elem_of _ _ _ H Hid Hr).
  - intros H. destruct (filter _ tbl) as [|r l] eqn:E; [done|].
    assert (Hr : r ∈ filter (fun r => Registration.id r = rec_id) tbl)
      by (rewrite E; left).
    apply list_elem_of_filter in Hr as [Hid Hr]. by destruct (H r Hr).
Qed.

Lemma query_get_is_Some rec_id tbl :
  is_Some (query_get rec_id tbl) <->
  exists r, r ∈ tbl /\ Registration.id r = rec_id.
Proof.
  split.
  - intros [rec H]. exists rec. by apply query_get_Some.
  - intros (r & Hr & Hid).
    destruct (query_get rec_id tbl) eqn:E; [eauto|].
    rewrite query_get_None in E. by destruct (E r Hr).
Qed.

Lemma first_filter_by_regno_Some regno tbl rec :
  first (filter_by_regno regno tbl) = Some rec ->
  rec ∈ tbl /\ Registration.regno rec = regno.
Proof.
  unfold first, filter_by_regno. intros H.
  apply head_Some_elem_of, list_elem_of_filter in H. tauto.
Qed.

Lemma first_filter_by_regno_None regno tbl :
  first (filter_by_regno regno tbl) = None <->
  regno ∉ (Registration.regno <$> tbl).
Proof.
  unfold first, filter_by_regno. rewrite head_None, list_elem_of_fmap. split.
  - intros H (r & -> & Hr).
    exact (filter_nil_not_elem_of _ _ _ H eq_refl Hr).
  - intros H. destruct (filter _ tbl) as [|r l] eqn:E; [done|].
    assert (Hr : r ∈ filter (fun r => Registration.regno r = regno) tbl)
      by (rewrite E; left).
    apply list_elem_of_filter in Hr as [Hid Hr]. destruct H; eauto.
Qed.

(** ** The update of the approval *)

Lemma update_row_lookup rec_id now tbl i :
  update_row rec_id now tbl !! i
  = (fun r => if decide (Registration.id r = rec_id) then approve now r else r)
      <$> (tbl !! i).
Proof. unfold update_row. apply list_lookup_fmap. Qed.

Lemma update_row_length rec_id now tbl :
  length (update_row rec_id now tbl) = length tbl.
Proof. unfold update_row. apply length_fmap. Qed.

Lemma update_row_elem_of rec_id now tbl r' :
  r' ∈ update_row rec_id now tbl <->
  exists r, r ∈ tbl
    /\ r' = if decide (Registration.id r = rec_id) then approve now r else r.
Proof.
  unfold update_row. rewrite list_elem_of_fmap.
  split; intros (r & H1 & H2); exists r; by split.
Qed.

Lemma update_row_ids rec_id now tbl :
  Registration.id <$> update_row rec_id now tbl = Registration.id <$> tbl.
Proof.
  unfold update_row. rewrite <- list_fmap_compose. apply list_fmap_ext.
  intros i r _. simpl. by case_decide.
Qed.

Lemma update_row_regnos rec_id now tbl :
  Registration.regno <$> update_row rec_id now tbl = Registration.regno <$> tbl.
Proof.
  unfold update_row. rewrite <- list_fmap_compose. apply list_fmap_ext.
  intros i r _. simpl. by case_decide.
Qed.

Lemma query_get_update_row rec_id now tbl rec :
  query_get rec_id tbl = Some rec ->
  query_get rec_id (update_row rec_id now tbl) = Some (approve now rec).
Proof.
  unfold query_get, update_row. induction tbl as [|r tbl IH]; [done|].
  rewrite fmap_cons, !filter_cons. simpl.
  destruct (decide (Registration.id r = rec_id)) as [Hr|Hr].
  - rewrite decide_True by done. simpl. congruence.
  - rewrite decide_False by done. exact IH.
Qed.

Lemma api_approve_view_found rec_id now st rec :
  query_get rec_id (table st) = Some rec ->
  api_approve_view rec_id now st
  = (Json 200 [("ok", JV (Py.VBool true))],
     Store (update_row rec_id now (table st)) (qrcodes st)).
Proof. unfold api_approve_view. by intros ->. Qed.

Lemma api_approve_view_missing rec_id now st :
  query_get rec_id (table st) = None ->
  api_approve_view rec_id now st = (not_found, st).
Proof. unfold api_approve_view. by intros ->. Qed.

(** ** Approval *)

(** C3.  Approving a record that is in the table with status 'pending'
    changes nothing but the [status] and the [approved_at] of that
    record: every row keeps its place, its [id], [regno], [data] and
    [created_at]; the rows with another [id] are the same rows; the
    image folder is the same. *)
Theorem approve_changes_only_status_and_stamp
    (rec_id now : Z) (st : store) (rec : Registration.t) :
  query_get rec_id (table st) = Some rec ->
  Registration.status rec = "pending" ->
  let st' := snd (api_approve true rec_id now st) in
  qrcodes st' = qrcodes st
  /\ length (table st') = length (table st)
  /\ forall i r, table st !! i = Some r ->
       exists r', table st' !! i = Some r'
         /\ Registration.id r' = Registration.id r
         /\ Registration.regno r' = Registration.regno r
         /\ Registration.data r' = Registration.data r
         /\ Registration.created_at r' = Registration.created_at r
         /\ (Registration.id r <> rec_id -> r' = r)
         /\ (Registration.id r = rec_id ->
             Registration.status r' = "approved"
             /\ Registration.approved_at r' = Some now).
Proof.
  intros Hget _ st'. subst st'. unfold api_approve.
  rewrite login_required_admin, (api_approve_view_found _ _ _ _ Hget). simpl.
  split; [done|]. split; [apply update_row_length|].
  intros i r Hi. rewrite update_row_lookup, Hi. simpl.
  destruct (decide (Registration.id r = rec_id)) as [Hid|Hid].
  - exists (approve now r). by repeat split.
  - exists r. by repeat split.
Qed.

Lemma sqlite_integer_range z :
  - 2 ^ 63 <= z < 2 ^ 63 -> Raising.sqlite_integer z = true.
Proof. unfold Raising.sqlite_integer. lia. Qed.

(** C4, for the keys that the database holds.  For a key in the range of
    SQLite's INTEGER: approving one that no record has answers 404 with
    [{error: "not found"}] and leaves the rows and the saved images as
    they were; approving one that a record has answers [{ok: true}],
    leaves the images as they were, and afterwards the record of that
    key has status 'approved' and [approved_at] equal to the clock's
    reading. *)
Theorem api_approve_answers_for_sqlite_keys
    (path : string) (rec_id now : Z) (w : Raising.world) :
  - 2 ^ 63 <= rec_id < 2 ^ 63 ->
  ((forall r, r ∈ Raising.rows w -> Registration.id r <> rec_id) ->
   Raising.api_approve true path rec_id now w
   = (Answer (Json 404 [("error", JV (Py.VStr "not found"))]), w))
  /\ ((exists r, r ∈ Raising.rows w /\ Registration.id r = rec_id) ->
      exists w',
        Raising.api_approve true path rec_id now w
        = (Answer (Json 200 [("ok", JV (Py.VBool true))]), w')
        /\ Raising.saved w' = Raising.saved w
        /\ (exists r', r' ∈ Raising.rows w' /\ Registration.id r' = rec_id)
        /\ forall r', r' ∈ Raising.rows w' -> Registration.id r' = rec_id ->
             Registration.status r' = "approved"
             /\ Registration.approved_at r' = Some now).
Proof.
  intros Hrange.
  unfold Raising.api_approve, Raising.login_required,
    Raising.api_approve_view, Raising.query_get.
  rewrite (sqlite_integer_range _ Hrange). split.
  - intros Hnone. apply query_get_None in Hnone. by rewrite Hnone.
  - intros Hsome. apply query_get_is_Some in Hsome as [rec Hget].
    rewrite Hget.
    exists (Raising.World (update_row rec_id now (Raising.rows w))
                          (Raising.saved w)).
    split; [done|]. simpl. split; [done|]. split.
    + exists (approve now rec).
      pose proof (query_get_update_row _ now _ _ Hget) as H.
      apply query_get_Some in H. exact H.
    + intros r' Hr' Hid. apply update_row_elem_of in Hr' as (r & Hr & ->).
      destruct (decide (Registration.id r = rec_id)); [done|].
      by destruct n.
Qed.

(** C9, as the code has it.  Approving a record that is already
    'approved' succeeds again and writes the clock's reading over
    [approved_at], whatever the stamp was: the reading is not compared
    with it.  The status stays 'approved', the other fields are kept,
    and the store is written: with a reading other than the stored
    stamp it is not the store before. *)
Theorem reapprove_overwrites_the_stamp
    (rec_id now old : Z) (st : store) (rec : Registration.t) :
  query_get rec_id (table st) = Some rec ->
  Registration.status rec = "approved" ->
  Registration.approved_at rec = Some old ->
  exists st' rec',
    api_approve true rec_id now st
    = (Json 200 [("ok", JV (Py.VBool true))], st')
    /\ query_get rec_id (table st') = Some rec'
    /\ Registration.status rec' = "approved"
    /\ Registration.approved_at rec' = Some now
    /\ Registration.id rec' = Registration.id rec
    /\ Registration.regno rec' = Registration.regno rec
    /\ Registration.data rec' = Registration.data rec
    /\ Registration.created_at rec' = Registration.created_at rec
    /\ (now <> old -> st' <> st).
Proof.
  intros Hget Hst Hold.
  exists (Store (update_row rec_id now (table st)) (qrcodes st)),
         (approve now rec).
  unfold api_approve.
  rewrite login_required_admin, (api_approve_view_found _ _ _ _ Hget).
  pose proof (query_get_update_row _ now _ _ Hget) as Hget'.
  repeat split; simpl; try done.
  intros Hne Heq. rewrite <- Heq in Hget. simpl in Hget.
  rewrite Hget' in Hget. injection Hget as Hrec.
  rewrite <- Hrec in Hold. simpl in Hold. by injection Hold.
Qed.

(** ** Export *)





(** ** The rows of a file that count *)

Lemma filter_iff_elem_of {A} (P Q : A -> Prop)
    `{!forall x, Decision (P x), !forall x, Decision (Q x)} (l : list A) :
  (forall x, x ∈ l -> P x <-> Q x) -> filter P l = filter Q l.
Proof.
  induction l as [|a l IH]; intros Hext; [done|].
  rewrite !filter_cons.
  assert (Ha : P a <-> Q a) by (apply Hext; left).
  rewrite IH by (intros x Hx; apply Hext; by right).
  destruct (decide (P a)), (decide (Q a)); tauto.
Qed.

Lemma counts_at_snoc_lt stored ids x i :
  (i < length ids)%nat ->
  counts_at stored (ids ++ [x]) i <-> counts_at stored ids i.
Proof.
  intros Hi. unfold counts_at.
  rewrite lookup_app_l by done. by rewrite take_app_le by lia.
Qed.

Lemma counts_at_snoc_last stored ids x :
  counts_at stored (ids ++ [x]) (length ids)
  <-> x <> "" /\ (x ∉ stored) /\ (x ∉ ids).
Proof.
  unfold counts_at. rewrite take_app_length.
  rewrite lookup_app_r, Nat.sub_diag by lia. simpl. split.
  - intros (r & Hr & H). by simplify_eq.
  - intros H. by exists x.
Qed.

Lemma counted_rows_snoc stored ids x :
  counted_rows stored (ids ++ [x])
  = counted_rows stored ids
    ++ (if decide (x <> "" /\ (x ∉ stored) /\ (x ∉ ids))
        then [length ids] else []).
Proof.
  unfold counted_rows. rewrite length_app. simpl.
  rewrite Nat.add_1_r, seq_S, filter_app. simpl. f_equal.
  - apply filter_iff_elem_of. intros i Hi. apply elem_of_seq in Hi.
    apply counts_at_snoc_lt. lia.
  - rewrite filter_cons, filter_nil.
    pose proof (counts_at_snoc_last stored ids x) as H.
    destruct (decide (counts_at stored (ids ++ [x]) (length ids))),
             (decide (x <> "" /\ (x ∉ stored) /\ (x ∉ ids))); tauto.
Qed.

Lemma counted_rows_lt stored ids i :
  i ∈ counted_rows stored ids -> (i < length ids)%nat.
Proof.
  unfold counted_rows. rewrite list_elem_of_filter, elem_of_seq. lia.
Qed.

Lemma counted_ids_snoc stored ids x :
  counted_ids stored (ids ++ [x])
  = counted_ids stored ids
    ++ (if decide (x <> "" /\ (x ∉ stored) /\ (x ∉ ids)) then [x] else []).
Proof.
  unfold counted_ids. rewrite counted_rows_snoc, omap_app. f_equal.
  - apply list_omap_ext. apply Forall2_same_length_lookup_2; [done|].
    intros k i j Hi Hj. simplify_eq.
    apply lookup_app_l, (counted_rows_lt stored), list_elem_of_lookup. eauto.
  - case_decide; [|done]. simpl.
    by rewrite lookup_app_r, Nat.sub_diag by lia.
Qed.

Lemma counted_ids_nil stored : counted_ids stored [] = [].
Proof. reflexivity. Qed.

Lemma counted_ids_length stored ids :
  length (counted_ids stored ids) = length (counted_rows stored ids).
Proof.
  induction ids as [|x ids IH] using rev_ind; [done|].
  rewrite counted_ids_snoc, counted_rows_snoc, !length_app, IH.
  by case_decide.
Qed.

Lemma elem_of_counted_ids stored ids r :
  r ∈ counted_ids stored ids <-> r ∈ ids /\ r <> "" /\ (r ∉ stored).
Proof.
  induction ids as [|x ids IH] using rev_ind.
  - rewrite counted_ids_nil. split; [by intros ?%elem_of_nil|].
    by intros [?%elem_of_nil _].
  - rewrite counted_ids_snoc, !elem_of_app, IH, list_elem_of_singleton.
    case_decide as Hx.
    + rewrite list_elem_of_singleton. split.
      * intros [H| ->]; tauto.
      * tauto.
    + split.
      * intros [H|H%elem_of_nil]; tauto.
      * intros [[H| ->] H']; [tauto|].
        left. destruct (decide (x ∈ ids)); tauto.
Qed.

Lemma counted_ids_NoDup stored ids : NoDup (counted_ids stored ids).
Proof.
  induction ids as [|x ids IH] using rev_ind; [constructor|].
  rewrite counted_ids_snoc. apply NoDup_app. split; [done|]. split.
  - intros r Hr. case_decide as Hx; [|by intros ?%elem_of_nil].
    rewrite list_elem_of_singleton. intros ->.
    apply elem_of_counted_ids in Hr. tauto.
  - case_decide; [apply NoDup_singleton | constructor].
Qed.

(** ** The loop of the upload *)

Lemma upload_row_empty clock st created row :
  regno_of (to_text <$> row) = "" ->
  upload_row clock (st, created) row = (st, created).
Proof. intros H. unfold upload_row. by rewrite decide_True. Qed.

Lemma upload_row_duplicate clock st created row :
  regno_of (to_text <$> row) ∈ stored_regnos st ->
  upload_row clock (st, created) row = (st, created).
Proof.
  intros H. unfold upload_row. case_decide; [done|].
  destruct (first _) eqn:E; [done|].
  apply first_filter_by_regno_None in E. by destruct E.
Qed.

Lemma upload_row_new clock st created row :
  let regno := regno_of (to_text <$> row) in
  regno <> "" -> regno ∉ stored_regnos st ->
  upload_row clock (st, created) row
  = (Store (table st
            ++ [new_registration (table st) (clock created) regno
                                 (to_text <$> row) "pending"])
           (<[regno +:+ ".png" := regno]> (qrcodes st)),
     S created).
Proof.
  intros regno Hne Hnew. unfold upload_row. fold regno.
  rewrite decide_False by done.
  apply first_filter_by_regno_None in Hnew. by rewrite Hnew.
Qed.

Lemma ingest_snoc clock df row st :
  ingest clock (df ++ [row]) st = upload_row clock (ingest clock df st) row.
Proof. unfold ingest. apply foldl_snoc. Qed.

Lemma save_images_snoc ids r files :
  save_images (ids ++ [r]) files
  = <[r +:+ ".png" := r]> (save_images ids files).
Proof. unfold save_images. by rewrite foldl_snoc. Qed.

Lemma made_from_snoc df row r i : made_from df r i -> made_from (df ++ [row]) r i.
Proof.
  intros (row' & Hi & H). exists row'. split; [|done].
  by apply lookup_app_l_Some.
Qed.

(** What the loop has done after a frame: the new rows are appended in
    the order of the rows that count, one for each, all 'pending', with
    consecutive keys and the clock's readings, and their images are
    saved. *)
Lemma ingest_spec clock df st :
  let stored := stored_regnos st in
  let ids := identifiers df in
  exists new,
    ingest clock df st
    = (Store (table st ++ new) (save_images (counted_ids stored ids) (qrcodes st)),
       length new)
    /\ Registration.regno <$> new = counted_ids stored ids
    /\ Forall is_pending new
    /\ Forall2 (made_from df) new (counted_rows stored ids)
    /\ forall k r, new !! k = Some r ->
         Registration.id r = next_id (table st ++ take k new)
         /\ Registration.created_at r = clock k.
Proof.
  intros stored. induction df as [|row df IH] using rev_ind.
  - exists []. simpl. rewrite app_nil_r. destruct st. by repeat split.
  - destruct IH as (new & Hrun & Hregnos & Hpend & Hfrom & Hkeys).
    unfold identifiers in *. rewrite fmap_app. simpl.
    set (ids := (fun row => regno_of (to_text <$> row)) <$> df) in *.
    set (x := regno_of (to_text <$> row)).
    rewrite ingest_snoc, Hrun, counted_ids_snoc, counted_rows_snoc.
    assert (Hmid : stored_regnos (Store (table st ++ new)
                     (save_images (counted_ids stored ids) (qrcodes st)))
                   = stored ++ counted_ids stored ids).
    { unfold stored_regnos. simpl. by rewrite fmap_app, Hregnos. }
    assert (Hfrom' : Forall2 (made_from (df ++ [row])) new
                             (counted_rows stored ids)).
    { eapply Forall2_impl; [exact Hfrom|]. intros r i. apply made_from_snoc. }
    destruct (decide (x = "")) as [Hx|Hx].
    { exists new. rewrite upload_row_empty by done.
      rewrite !decide_False by tauto. by rewrite !app_nil_r. }
    destruct (decide (x ∈ stored ++ counted_ids stored ids)) as [Hin|Hin].
    { exists new. rewrite upload_row_duplicate by (by rewrite Hmid).
      rewrite elem_of_app, elem_of_counted_ids in Hin.
      rewrite !decide_False by tauto. by rewrite !app_nil_r. }
    exists (new ++ [new_registration (table st ++ new) (clock (length new))
                                     x (to_text <$> row) "pending"]).
    rewrite upload_row_new by (by try rewrite Hmid).
    rewrite elem_of_app, elem_of_counted_ids in Hin.
    rewrite !decide_True by (destruct (decide (x ∈ ids)); tauto).
    simpl. fold x.
    rewrite save_images_snoc, length_app, Nat.add_1_r, (assoc_L (++)).
    split; [done|]. split; [by rewrite fmap_app, Hregnos|].
    split; [apply Forall_app; split; [done|by repeat constructor]|].
    split.
    + apply Forall2_app; [done|]. repeat constructor.
      exists row. unfold ids. rewrite length_fmap.
      by rewrite lookup_app_r, Nat.sub_diag by lia.
    + intros k r Hk. apply lookup_app_Some in Hk as [Hk|[Hge Hk]].
      * apply lookup_lt_Some in Hk as Hlt.
        rewrite take_app_le by lia. by apply Hkeys.
      * apply list_lookup_singleton_Some in Hk as [Hk <-].
        assert (k = length new) as -> by lia.
        by rewrite take_app_length.
Qed.

(** ** Appending text, and counting the new rows *)

Lemma append_nil_l (s : string) : "" +:+ s = s.
Proof. reflexivity. Qed.

Lemma append_cons (a : ascii) (s1 s2 : string) :
  String a s1 +:+ s2 = String a (s1 +:+ s2).
Proof. reflexivity. Qed.

Lemma length_append (s1 s2 : string) :
  String.length (s1 +:+ s2) = (String.length s1 + String.length s2)%nat.
Proof.
  induction s1 as [|a s1 IH]; [done|].
  rewrite append_cons. simpl. by rewrite IH.
Qed.


(** ** The upload *)

Lemma upload_view_valid f df clock st :
  valid_upload f df ->
  upload_view POST (Some f) clock st
  = (Redirect RequestUrl
       (Some ("success", processed_message (snd (ingest clock df st)))),
     fst (ingest clock df st)).
Proof.
  intros (Hname & Hext & Hread). unfold upload_view.
  rewrite decide_False by done. rewrite Hext, Hread. simpl.
  by destruct (ingest clock df st).
Qed.

(** *** The loop on the file system *)

Lemma ingest_raising_snoc E clock df row tbl disk created :
  Raising.ingest E clock (df ++ [row]) tbl disk created
  = match Raising.ingest E clock df tbl disk created with
    | Raising.Finished tbl' disk' created' =>
        Raising.ingest E clock [row] tbl' disk' created'
    | Raising.Raised disk' => Raising.Raised disk'
    end.
Proof.
  revert tbl disk created. induction df as [|r df IH]; intros; [done|].
  simpl. case_decide; [apply IH|].
  destruct (first _); [apply IH|].
  destruct (Raising.generate_qr_for_text _ _ _ _); [apply IH|done].
Qed.

(** The two layers agree.  When the loop on the file system finishes, it
    leaves the table and the count of the loop in which every save
    returns, it has made one save for each row that counts, in order,
    and each of these saves returned; when it raises, the save of some
    row that counts did not return, after the saves of the rows that
    count before it. *)
Lemma ingest_agrees E clock df tbl disk files :
  let ids := counted_ids (Registration.regno <$> tbl) (identifiers df) in
  let st1 := ingest clock df (Store tbl files) in
  match Raising.ingest E clock df tbl disk 0%nat with
  | Raising.Finished tbl' disk' created =>
      tbl' = table st1.1 /\ created = st1.2
      /\ disk' = disk ++ (Raising.image_of E <$> ids)
      /\ forall k r, ids !! k = Some r ->
           saves_image E (disk ++ (Raising.image_of E <$> take k ids))
                       r (Raising.image_of E r).1 = true
  | Raising.Raised disk' =>
      exists k r, ids !! k = Some r
        /\ disk' = disk ++ (Raising.image_of E <$> take k ids)
        /\ saves_image E disk' r (Raising.image_of E r).1 = false
  end.
Proof.
  induction df as [|row df IH] using rev_ind.
  - simpl. rewrite app_nil_r. repeat split. intros k r Hk.
    by rewrite counted_ids_nil, lookup_nil in Hk.
  - simpl in IH |- *. rewrite ingest_raising_snoc.
    unfold identifiers in *. rewrite fmap_app. simpl.
    set (ids := (fun row => regno_of (to_text <$> row)) <$> df) in *.
    set (x := regno_of (to_text <$> row)).
    set (stored := Registration.regno <$> tbl) in *.
    rewrite counted_ids_snoc, ingest_snoc.
    destruct (ingest_spec clock df (Store tbl files))
      as (new & Hrun & Hregnos & _).
    fold ids in Hregnos. unfold stored_regnos in Hregnos. simpl in Hregnos.
    fold ids in Hrun. unfold stored_regnos in Hrun. simpl in Hrun.
    fold stored in Hregnos, Hrun. unfold identifiers in Hrun. fold ids in Hrun.
    rewrite Hrun in IH |- *. simpl in IH.
    destruct (Raising.ingest E clock df tbl disk 0) as [tbl1 disk1 c1|disk1].
    + destruct IH as (-> & -> & -> & Hsaves).
      cbn [Raising.ingest]. fold x.
      assert (Hmid : Registration.regno <$> (tbl ++ new)
                     = stored ++ counted_ids stored ids)
        by (by rewrite fmap_app, Hregnos).
      destruct (decide (x = "")) as [Hx|Hx].
      { rewrite upload_row_empty by done.
        rewrite decide_False by tauto. rewrite app_nil_r. by repeat split. }
      destruct (decide (x ∈ stored ++ counted_ids stored ids)) as [Hin|Hin].
      { assert (Hdup : first (filter_by_regno x (tbl ++ new)) <> None).
        { intros Hn%first_filter_by_regno_None. by rewrite Hmid in Hn. }
        destruct (first (filter_by_regno x (tbl ++ new))); [|done].
        rewrite upload_row_duplicate
          by (unfold stored_regnos; simpl; by rewrite Hmid).
        rewrite elem_of_app, elem_of_counted_ids in Hin.
        rewrite decide_False by tauto. rewrite app_nil_r. by repeat split. }
      assert (Hnew : first (filter_by_regno x (tbl ++ new)) = None)
        by (apply first_filter_by_regno_None; by rewrite Hmid).
      rewrite Hnew.
      rewrite upload_row_new
        by (unfold stored_regnos; simpl; by try rewrite Hmid).
      rewrite elem_of_app, elem_of_counted_ids in Hin.
      rewrite decide_True by (destruct (decide (x ∈ ids)); tauto).
      unfold Raising.generate_qr_for_text.
      fold (Raising.image_of E x).

      destruct (saves_image E _ x _) eqn:Hsave; simpl.
      * split; [done|]. split; [done|]. split.
        { by rewrite fmap_app, (assoc_L (++)). }
        intros k r Hk. apply lookup_app_Some in Hk as [Hk|[Hge Hk]].
        -- apply lookup_lt_Some in Hk as Hlt.
           rewrite take_app_le by lia. by apply Hsaves.
        -- apply list_lookup_singleton_Some in Hk as [Hk <-].
           assert (k = length (counted_ids stored ids)) as -> by lia.
           by rewrite take_app_length.
      * exists (length (counted_ids stored ids)), x.
        rewrite take_app_length.
        split; [by rewrite lookup_app_r, Nat.sub_diag by lia|]. by split.
    + destruct IH as (k & r & Hk & -> & Hsave). exists k, r.
      apply lookup_lt_Some in Hk as Hlt.
      rewrite take_app_le by lia.
      split; [by apply lookup_app_l_Some|]. by split.
Qed.


Lemma counted_ids_all_stored stored ids :
  (forall r, r ∈ ids -> r = "" \/ r ∈ stored) -> counted_ids stored ids = [].
Proof.
  intros H. destruct (counted_ids stored ids) as [|r l] eqn:E; [done|].
  assert (Hr : r ∈ counted_ids stored ids) by (rewrite E; left).
  apply elem_of_counted_ids in Hr as (Hr & Hne & Hnew).
  destruct (H r Hr); tauto.
Qed.

Lemma ingest_nothing_new clock df st :
  counted_ids (stored_regnos st) (identifiers df) = [] ->
  ingest clock df st = (st, 0%nat).
Proof.
  intros Hnone.
  destruct (ingest_spec clock df st) as (new & Hrun & Hregnos & _).
  rewrite Hnone in Hrun, Hregnos. apply fmap_nil_inv in Hregnos as ->.
  rewrite Hrun, app_nil_r. by destruct st.
Qed.

(** C2.  Uploading a file again, right after a valid upload of it, adds
    nothing: no row of the file counts any more, the summary reports 0
    and the store (table and images) is the one the first upload left. *)
Theorem reupload_adds_nothing
    (f : FileStorage) (df : list (gmap string Py.value))
    (clock clock' : nat -> Z) (st : store) :
  valid_upload f df ->
  let st1 := snd (upload true POST (Some f) clock st) in
  counted_rows (stored_regnos st1) (identifiers df) = []
  /\ upload true POST (Some f) clock' st1
     = (Redirect RequestUrl (Some ("success", processed_message 0)), st1).
Proof.
  intros Hvalid st1.
  assert (Hnone : counted_ids (stored_regnos st1) (identifiers df) = []).
  { apply counted_ids_all_stored. intros r Hr.
    destruct (decide (r = "")) as [|Hne]; [by left|]. right.
    subst st1. unfold upload.
    rewrite login_required_admin, (upload_view_valid _ _ _ _ Hvalid). simpl.
    destruct (ingest_spec clock df st) as (new & Hrun & Hregnos & _).
    rewrite Hrun. unfold stored_regnos. simpl.
    rewrite fmap_app, Hregnos, elem_of_app, elem_of_counted_ids.
    destruct (decide (r ∈ Registration.regno <$> table st)); tauto. }
  split.
  - apply length_zero_iff_nil. by rewrite <- counted_ids_length, Hnone.
  - unfold upload at 1.
    rewrite login_required_admin, (upload_view_valid _ _ _ _ Hvalid).
    by rewrite ingest_nothing_new.
Qed.

(** ** Whitespace *)

Lemma lstrip_starts s : Py.starts_with_space (Py.lstrip s) = false.
Proof.
  induction s as [|c s IH]; [done|]. simpl.
  destruct (Py.isspace c) eqn:E; [done|]. simpl. exact E.
Qed.

Lemma rstrip_ends s : Py.ends_with_space (Py.rstrip s) = false.
Proof.
  induction s as [|c s IH]; [done|]. simpl.
  destruct (Py.rstrip s) as [|d t] eqn:E.
  - destruct (Py.isspace c) eqn:Ec; [done|]. simpl. exact Ec.
  - exact IH.
Qed.

Lemma rstrip_starts s :
  Py.starts_with_space s = false -> Py.starts_with_space (Py.rstrip s) = false.
Proof.
  destruct s as [|c s]; [done|]. simpl. intros Hc.
  destruct (Py.rstrip s); [by rewrite Hc|done].
Qed.

Lemma strip_trimmed s : trimmed (Py.strip s).
Proof.
  unfold trimmed, Py.strip. split.
  - apply rstrip_starts, lstrip_starts.
  - apply rstrip_ends.
Qed.

Lemma lstrip_id s : Py.starts_with_space s = false -> Py.lstrip s = s.
Proof. destruct s as [|c s]; [done|]. simpl. by intros ->. Qed.

Lemma rstrip_id s : Py.ends_with_space s = false -> Py.rstrip s = s.
Proof.
  induction s as [|c s IH]; [done|]. simpl.
  destruct s as [|d s].
  - simpl. by intros ->.
  - intros H. by rewrite IH.
Qed.

Lemma strip_id s : trimmed s -> Py.strip s = s.
Proof.
  intros [H1 H2]. unfold Py.strip. rewrite (lstrip_id _ H1). by apply rstrip_id.
Qed.

Lemma regno_of_trimmed record : trimmed (regno_of record).
Proof. apply strip_trimmed. Qed.

(** ** What a request does to the table *)

Lemma upload_view_table m file clock st :
  snd (upload_view m file clock st) = st
  \/ exists df, snd (upload_view m file clock st) = fst (ingest clock df st).
Proof.
  unfold upload_view. destruct m; [by left|].
  destruct file as [f|]; [|by left].
  case_decide; [by left|].
  destruct (allowed_file _); [|by left]. simpl.
  destruct (read_file f) as [e|df]; [by left|].
  right. exists df. by destruct (ingest clock df st).
Qed.

Lemma step_cases st rq :
  step st rq = st
  \/ (exists rec_id now,
        step st rq = Store (update_row rec_id now (table st)) (qrcodes st))
  \/ (exists clock df, step st rq = fst (ingest clock df st)).
Proof.
  unfold step.
  destruct rq as [[] m file clock|[] regno|[] rec_id now|[]|[]|[]]; simpl;
    try (by left).
  - destruct (upload_view_table m file clock st) as [H|[df H]]; eauto.
  - unfold api_get_by_regno_view. destruct (first _); by left.
  - unfold api_approve_view. destruct (query_get _ _); [|by left].
    right. left. eauto.
  - unfold admin_download_export_view.
    destruct (filter_by_status _ _); by left.
Qed.

(** An invariant of the rows is an invariant of the reachable stores
    when an approval keeps it and the rows of an upload have it. *)
Lemma reachable_Forall (P : Registration.t -> Prop) :
  (forall now r, P r -> P (approve now r)) ->
  (forall clock df st,
     Forall P (table st) -> Forall P (table (fst (ingest clock df st)))) ->
  forall st, reachable st -> Forall P (table st).
Proof.
  intros Happrove Hingest st Hst. induction Hst as [files|st rq Hst IH].
  - constructor.
  - destruct (step_cases st rq) as [->|[(rec_id & now & ->)|(c & df & ->)]].
    + done.
    + simpl. unfold update_row. apply Forall_fmap.
      eapply Forall_impl; [exact IH|]. intros r Hr. simpl.
      case_decide; auto.
    + by apply Hingest.
Qed.

(** ** Invariants of the reachable stores *)

Lemma ingest_table clock df st :
  exists new,
    table (fst (ingest clock df st)) = table st ++ new
    /\ Forall is_pending new
    /\ forall r, r ∈ new ->
         Registration.regno r <> "" /\ trimmed (Registration.regno r).
Proof.
  destruct (ingest_spec clock df st) as (new & Hrun & Hregnos & Hpend & _).
  exists new. rewrite Hrun. simpl. split; [done|]. split; [done|].
  intros r Hr.
  assert (H : Registration.regno r
              ∈ counted_ids (stored_regnos st) (identifiers df))
    by (rewrite <- Hregnos; by apply list_elem_of_fmap_2).
  apply elem_of_counted_ids in H as (Hin & Hne & _). split; [done|].
  unfold identifiers in Hin. apply list_elem_of_fmap in Hin as (row & -> & _).
  apply regno_of_trimmed.
Qed.

Lemma reachable_shape st :
  reachable st -> Forall (fun r => is_pending r \/ is_approved r) (table st).
Proof.
  apply reachable_Forall.
  - intros now r _. right. split; [done|]. by exists now.
  - intros clock df st' H.
    destruct (ingest_table clock df st') as (new & -> & Hpend & _).
    apply Forall_app. split; [done|].
    eapply Forall_impl; [exact Hpend|]. by left.
Qed.

Lemma reachable_regno st :
  reachable st ->
  Forall (fun r => Registration.regno r <> "" /\ trimmed (Registration.regno r))
         (table st).
Proof.
  apply reachable_Forall.
  - by intros now r H.
  - intros clock df st' H.
    destruct (ingest_table clock df st') as (new & -> & _ & Hnew).
    apply Forall_app. split; [done|]. by apply Forall_forall.
Qed.

Lemma step_keeps_rows st rq i r :
  (is_pending r \/ is_approved r) ->
  table st !! i = Some r ->
  exists r', table (step st rq) !! i = Some r'
    /\ Registration.id r' = Registration.id r
    /\ Registration.regno r' = Registration.regno r
    /\ (Registration.status r' = Registration.status r
        \/ (Registration.status r = "pending"
            /\ Registration.status r' = "approved")).
Proof.
  intros Hshape Hi.
  destruct (step_cases st rq) as [->|[(rec_id & now & ->)|(c & df & ->)]].
  - exists r. by auto.
  - simpl. rewrite update_row_lookup, Hi. simpl.
    case_decide; [|exists r; by auto].
    exists (approve now r). repeat split; try done. simpl.
    destruct Hshape as [[-> _]|[-> _]]; auto.
  - destruct (ingest_table c df st) as (new & -> & _).
    exists r. split; [by apply lookup_app_l_Some|]. auto.
Qed.

Lemma reachable_run rqs st : reachable st -> reachable (run rqs st).
Proof.
  revert st. induction rqs as [|rq rqs IH]; intros st Hst; [done|].
  apply IH. by constructor.
Qed.

(** C5.  In every store that uploads and approvals (and the other
    requests) can reach, every record has [approved_at] set exactly when
    its status is 'approved', and its status is 'pending' or 'approved';
    a request leaves every record in its place with its status, or takes
    it from 'pending' to 'approved'; and a record that is 'approved'
    stays so whatever requests follow. *)
Theorem status_moves_only_from_pending_to_approved :
  (forall st, reachable st -> forall r, r ∈ table st ->
     (is_Some (Registration.approved_at r)
      <-> Registration.status r = "approved")
     /\ (Registration.status r = "pending"
         \/ Registration.status r = "approved"))
  /\ (forall st rq, reachable st -> forall i r, table st !! i = Some r ->
        exists r', table (step st rq) !! i = Some r'
          /\ Registration.id r' = Registration.id r
          /\ Registration.regno r' = Registration.regno r
          /\ (Registration.status r' = Registration.status r
              \/ (Registration.status r = "pending"
                  /\ Registration.status r' = "approved")))
  /\ (forall rqs st, reachable st -> forall i r, table st !! i = Some r ->
        Registration.status r = "approved" ->
        exists r', table (run rqs st) !! i = Some r'
          /\ Registration.id r' = Registration.id r
          /\ Registration.status r' = "approved").
Proof.
  assert (Hshape : forall st i r, reachable st -> table st !! i = Some r ->
                     is_pending r \/ is_approved r).
  { intros st i r Hst Hi. apply reachable_shape in Hst.
    rewrite Forall_forall in Hst. apply Hst. by eapply list_elem_of_lookup_2. }
  split; [|split].
  - intros st Hst r Hr. apply list_elem_of_lookup in Hr as [i Hi].
    destruct (Hshape st i r Hst Hi) as [[Hs Ha]|[Hs Ha]]; rewrite Hs.
    + rewrite Ha. split; [|by left]. split; [by intros [? ?]|done].
    + split; [|by right]. by split.
  - intros st rq Hst i r Hi.
    destruct (step_keeps_rows st rq i r (Hshape st i r Hst Hi) Hi)
      as (r' & H1 & H2 & H3 & H4).
    by exists r'.
  - induction rqs as [|rq rqs IH]; intros st Hst i r Hi Hs.
    + by exists r.
    + destruct (step_keeps_rows st rq i r (Hshape st i r Hst Hi) Hi)
        as (r' & H1 & H2 & _ & H3).
      assert (Hs' : Registration.status r' = "approved").
      { destruct H3 as [->|[Hp _]]; [done|]. rewrite Hs in Hp. discriminate. }
      destruct (IH (step st rq) (reachable_step _ _ Hst) i r' H1 Hs')
        as (r'' & H1' & H2' & H3').
      exists r''. simpl. split; [done|]. split; [congruence|done].
Qed.

(** C10.  In every reachable store the [regno] of every record is not
    empty and has no whitespace at either end, so it is its own
    [strip()]; hence a lookup that answers with a record (status 200)
    was asked for a regno that is not empty and is trimmed. *)
Theorem stored_regno_is_trimmed_and_lookup_needs_one (st : store) :
  reachable st ->
  (forall r, r ∈ table st ->
     Registration.regno r <> ""
     /\ Py.starts_with_space (Registration.regno r) = false
     /\ Py.ends_with_space (Registration.regno r) = false
     /\ Py.strip (Registration.regno r) = Registration.regno r)
  /\ (forall admin regno body st',
        api_get_by_regno admin regno st = (Json 200 body, st') ->
        regno <> ""
        /\ Py.starts_with_space regno = false
        /\ Py.ends_with_space regno = false
        /\ Py.strip regno = regno).
Proof.
  intros Hst. apply reachable_regno in Hst. rewrite Forall_forall in Hst.
  assert (Hrows : forall r, r ∈ table st ->
     Registration.regno r <> ""
     /\ Py.starts_with_space (Registration.regno r) = false
     /\ Py.ends_with_space (Registration.regno r) = false
     /\ Py.strip (Registration.regno r) = Registration.regno r).
  { intros r Hr. destruct (Hst r Hr) as [Hne Htrim].
    split; [done|]. pose proof (strip_id _ Htrim). by destruct Htrim. }
  split; [done|].
  intros [] regno body st' H; [|discriminate].
  unfold api_get_by_regno in H. rewrite login_required_admin in H.
  unfold api_get_by_regno_view in H.
  destruct (first _) as [rec|] eqn:E; [|discriminate].
  apply first_filter_by_regno_Some in E as [Hrec <-]. by apply Hrows.
Qed.

(** ** Keys *)

Lemma max_id_ge tbl r : r ∈ tbl -> Registration.id r <= max_id tbl.
Proof.
  induction tbl as [|x tbl IH]; [by intros ?%elem_of_nil|].
  simpl. intros [->|Hr]%elem_of_cons; [lia|]. specialize (IH Hr). lia.
Qed.

Lemma next_id_fresh tbl : next_id tbl ∉ (Registration.id <$> tbl).
Proof.
  intros (r & Hid & Hr)%list_elem_of_fmap.
  apply max_id_ge in Hr. unfold next_id in Hid. lia.
Qed.

Lemma NoDup_ids_append tbl new :
  NoDup (Registration.id <$> tbl) ->
  (forall k r, new !! k = Some r ->
     Registration.id r = next_id (tbl ++ take k new)) ->
  NoDup (Registration.id <$> (tbl ++ new)).
Proof.
  intros Htbl. induction new as [|x new IH] using rev_ind; intros Hkeys.
  - by rewrite app_nil_r.
  - rewrite (assoc_L (++)), fmap_app. apply NoDup_app. split; [|split].
    + apply IH. intros k r Hk. apply lookup_lt_Some in Hk as Hlt.
      rewrite <- (take_app_le new [x] k) by lia.
      apply Hkeys. by apply lookup_app_l_Some.
    + intros i Hi. simpl. rewrite list_elem_of_singleton. intros ->.
      assert (Hx : Registration.id x = next_id (tbl ++ new)).
      { rewrite <- (take_app_length new [x]) at 1. apply Hkeys.
        by rewrite lookup_app_r, Nat.sub_diag by lia. }
      rewrite Hx in Hi. by apply next_id_fresh in Hi.
    + apply NoDup_singleton.
Qed.

Lemma NoDup_fmap_eq {A B} (f : A -> B) (l : list A) x y :
  NoDup (f <$> l) -> x ∈ l -> y ∈ l -> f x = f y -> x = y.
Proof.
  induction l as [|a l IH]; [by intros _ ?%elem_of_nil|].
  rewrite fmap_cons, NoDup_cons.
  intros [Ha Hl] [->|Hx]%elem_of_cons [->|Hy]%elem_of_cons Hf; auto.
  - destruct Ha. rewrite Hf. by apply list_elem_of_fmap_2.
  - destruct Ha. rewrite <- Hf. by apply list_elem_of_fmap_2.
Qed.

(** In a reachable store no two records share a [regno] or an [id]. *)
Lemma reachable_unique_keys st :
  reachable st ->
  NoDup (Registration.regno <$> table st)
  /\ NoDup (Registration.id <$> table st).
Proof.
  induction 1 as [files|st rq Hst [IHr IHi]].
  - split; constructor.
  - destruct (step_cases st rq) as [->|[(rec_id & now & ->)|(c & df & ->)]].
    + done.
    + simpl. by rewrite update_row_regnos, update_row_ids.
    + destruct (ingest_spec c df st)
        as (new & -> & Hregnos & _ & _ & Hkeys). simpl. split.
      * rewrite fmap_app, Hregnos. apply NoDup_app. split; [done|].
        split; [|apply counted_ids_NoDup].
        intros r Hr Hin. apply elem_of_counted_ids in Hin. tauto.
      * apply NoDup_ids_append; [done|]. intros k r Hk. by apply Hkeys.
Qed.

(** ** Lookup *)

(** C7.  For a regno that no record has the lookup answers 404 with
    [{error: "not found"}]; for a regno that a record has it answers
    with the [id], the [data] and the [status] of the stored record of
    that regno (the first in the table, and in a reachable store the
    only one).  The store is not touched. *)
Theorem api_get_by_regno_unknown_or_known (regno : string) (st : store) :
  ((forall r, r ∈ table st -> Registration.regno r <> regno) ->
   api_get_by_regno true regno st
   = (Json 404 [("error", JV (Py.VStr "not found"))], st))
  /\ ((exists r, r ∈ table st /\ Registration.regno r = regno) ->
      exists rec,
        first (filter_by_regno regno (table st)) = Some rec
        /\ rec ∈ table st
        /\ Registration.regno rec = regno
        /\ api_get_by_regno true regno st
           = (Json 200 [("id", JV (Py.VInt (Registration.id rec)));
                        ("data", JDict (Registration.data rec));
                        ("status", JV (Py.VStr (Registration.status rec)))],
              st)
        /\ (reachable st ->
            forall r, r ∈ table st -> Registration.regno r = regno ->
                      r = rec)).
Proof.
  unfold api_get_by_regno. rewrite login_required_admin.
  unfold api_get_by_regno_view. split.
  - intros Hnone.
    assert (H : first (filter_by_regno regno (table st)) = None).
    { apply first_filter_by_regno_None. rewrite list_elem_of_fmap.
      intros (r & -> & Hr). by apply (Hnone r). }
    by rewrite H.
  - intros (r & Hr & Hregno).
    destruct (first (filter_by_regno regno (table st))) as [rec|] eqn:E.
    + exists rec. apply first_filter_by_regno_Some in E as HE.
      destruct HE as [Hrec Heq]. repeat split; try done.
      intros Hst r' Hr' Hregno'. apply reachable_unique_keys in Hst as [Hu _].
      eapply NoDup_fmap_eq; eauto. congruence.
    + apply first_filter_by_regno_None in E. destruct E.
      rewrite list_elem_of_fmap. eauto.
Qed.

(** ** The identifier of a row *)

Lemma or_truthy a b : Py.truthy a = true -> Py.or_ a b = a.
Proof. unfold Py.or_. by intros ->. Qed.

Lemma or_falsy a b : Py.truthy a = false -> Py.or_ a b = b.
Proof. unfold Py.or_. by intros ->. Qed.



(** * The worked example *)

(** The file of the example: of the three rows only the first is
    stored; the dashboard then counts one pending record. *)
Example upload_scenario :
  handle (ReqUpload true POST (Some scenario_file) scenario_clock) empty_store
  = (Redirect RequestUrl
       (Some ("success", "Processed file. 1 records added to pending.")),
     Store [alice] {[ "A1.png" := "A1" ]})
  /\ fst (admin_dashboard true after_upload)
     = Render "admin_dashboard.html"
         [("pending_count", 1%nat); ("approved_count", 0%nat)] [alice].
Proof. split; vm_compute; reflexivity. Qed.

(** Line 110 on a cell that holds the float [nan]. *)
Example nan_reg_no_is_an_identifier :
  regno_of {[ "Reg No" := Py.nan; "regno" := Py.VStr "B2" ]} = "nan".
Proof. vm_compute; reflexivity. Qed.

Lemma scenario_is_valid : valid_upload scenario_file scenario_rows.
Proof. split; [discriminate|split; vm_compute; reflexivity]. Defined.

Lemma after_upload_table : table after_upload = [alice].
Proof. vm_compute; reflexivity. Defined.

Lemma after_approval_table : table after_approval = [approve 2000 alice].
Proof. vm_compute; reflexivity. Defined.

Lemma after_upload_reachable : reachable after_upload.
Proof. unfold after_upload, empty_store. apply reachable_step, reachable_init. Defined.

Lemma after_approval_reachable : reachable after_approval.
Proof. unfold after_approval. apply reachable_step, after_upload_reachable. Defined.

Lemma scenario_upload_is_answered :
  Raising.upload scenario_environment true POST (Some scenario_file)
                 scenario_clock empty_world
  = (Answer (Redirect RequestUrl
               (Some ("success",
                      "Processed file. 1 records added to pending."))),
     world_after_upload).
Proof. vm_compute; reflexivity. Defined.



Lemma reupload_scenario_adds_nothing :
  upload true POST (Some scenario_file) scenario_clock after_upload
  = (Redirect RequestUrl (Some ("success", processed_message 0)),
     after_upload).
Proof.
  exact (proj2 (reupload_adds_nothing scenario_file scenario_rows
                  scenario_clock scenario_clock empty_store
                  scenario_is_valid)).
Defined.

Lemma approve_alice_frame :
  qrcodes after_approval = qrcodes after_upload
  /\ length (table after_approval) = length (table after_upload).
Proof.
  destruct (approve_changes_only_status_and_stamp 1 2000 after_upload alice)
    as (H1 & H2 & _).
  - vm_compute; reflexivity.
  - reflexivity.
  - split; [exact H1|exact H2].
Defined.

Lemma world_after_upload_rows : Raising.rows world_after_upload = [alice].
Proof. vm_compute; reflexivity. Defined.

Lemma approve_unknown_and_known :
  Raising.api_approve true "/api/approve/7" 7 2000 world_after_upload
  = (Answer (Json 404 [("error", JV (Py.VStr "not found"))]),
     world_after_upload)
  /\ exists w',
       Raising.api_approve true "/api/approve/01" 1 2000 world_after_upload
       = (Answer (Json 200 [("ok", JV (Py.VBool true))]), w').
Proof.
  split.
  - apply (proj1 (api_approve_answers_for_sqlite_keys
                    "/api/approve/7" 7 2000 world_after_upload
                    ltac:(lia))).
    intros r Hr. rewrite world_after_upload_rows in Hr.
    apply list_elem_of_singleton in Hr as ->. discriminate.
  - destruct (proj2 (api_approve_answers_for_sqlite_keys
                       "/api/approve/01" 1 2000 world_after_upload
                       ltac:(lia)))
      as (w' & H & _).
    + exists alice. rewrite world_after_upload_rows.
      split; [left|reflexivity].
    + exists w'. exact H.
Defined.

(** C4 as it is stated fails on the key 2^63, which no record has: the
    lookup of line 165 raises and the request ends with status 500, not
    with the 404 of [{error: "not found"}]. *)
Lemma approve_of_a_key_beyond_sqlite_raises :
  (forall r, r ∈ Raising.rows world_after_upload ->
             Registration.id r <> 9223372036854775808)
  /\ Raising.api_approve true "/api/approve/9223372036854775808"
                         9223372036854775808 2000 world_after_upload
     = (InternalServerError, world_after_upload)
  /\ Raising.api_approve true "/api/approve/9223372036854775808"
                         9223372036854775808 2000 world_after_upload
     <> (Answer (Json 404 [("error", JV (Py.VStr "not found"))]),
         world_after_upload).
Proof.
  split; [|split].
  - intros r Hr. rewrite world_after_upload_rows in Hr.
    apply list_elem_of_singleton in Hr as ->. discriminate.
  - vm_compute; reflexivity.
  - vm_compute; discriminate.
Qed.

Lemma approved_alice_is_well_formed :
  ((is_Some (Registration.approved_at (approve 2000 alice))
    <-> Registration.status (approve 2000 alice) = "approved")
   /\ (Registration.status (approve 2000 alice) = "pending"
       \/ Registration.status (approve 2000 alice) = "approved"))
  /\ (exists r', table after_approval !! 0%nat = Some r'
        /\ Registration.id r' = Registration.id alice
        /\ Registration.regno r' = Registration.regno alice
        /\ (Registration.status r' = Registration.status alice
            \/ (Registration.status alice = "pending"
                /\ Registration.status r' = "approved")))
  /\ (exists r',
        table (run [ReqApprove true 1 3000;
                    ReqUpload true POST (Some scenario_file) scenario_clock]
                   after_approval) !! 0%nat = Some r'
        /\ Registration.id r' = Registration.id (approve 2000 alice)
        /\ Registration.status r' = "approved").
Proof.
  destruct status_moves_only_from_pending_to_approved as (H1 & H2 & H3).
  split; [|split].
  - apply (H1 after_approval after_approval_reachable).
    rewrite after_approval_table. left.
  - apply (H2 after_upload (ReqApprove true 1 2000) after_upload_reachable).
    by rewrite after_upload_table.
  - apply (H3 _ after_approval after_approval_reachable).
    + by rewrite after_approval_table.
    + reflexivity.
Defined.


Lemma two_approved_table : table two_approved = [seat_holder; name_holder].
Proof. vm_compute; reflexivity. Defined.

Lemma two_approved_reachable : reachable two_approved.
Proof.
  unfold two_approved, empty_store. apply reachable_run, reachable_init.
Defined.


Lemma lookup_unknown_and_known :
  api_get_by_regno true "ZZ" after_upload
  = (Json 404 [("error", JV (Py.VStr "not found"))], after_upload)
  /\ exists rec,
       rec ∈ table after_upload
       /\ api_get_by_regno true "A1" after_upload
          = (Json 200 [("id", JV (Py.VInt (Registration.id rec)));
                       ("data", JDict (Registration.data rec));
                       ("status", JV (Py.VStr (Registration.status rec)))],
             after_upload).
Proof.
  split.
  - apply (proj1 (api_get_by_regno_unknown_or_known "ZZ" after_upload)).
    intros r Hr. rewrite after_upload_table in Hr.
    apply list_elem_of_singleton in Hr as ->. discriminate.
  - destruct (proj2 (api_get_by_regno_unknown_or_known "A1" after_upload))
      as (rec & _ & H1 & _ & H2 & _).
    + exists alice. rewrite after_upload_table. split; [left|reflexivity].
    + exists rec. split; [exact H1|exact H2].
Defined.


Lemma reapprove_alice :
  exists st' rec',
    api_approve true 1 3000 after_approval
    = (Json 200 [("ok", JV (Py.VBool true))], st')
    /\ query_get 1 (table st') = Some rec'
    /\ Registration.status rec' = "approved"
    /\ Registration.approved_at rec' = Some 3000
    /\ st' <> after_approval.
Proof.
  destruct (reapprove_overwrites_the_stamp
              1 3000 2000 after_approval (approve 2000 alice))
    as (st' & rec' & H1 & H2 & H3 & H4 & _ & _ & _ & _ & H5).
  - vm_compute; reflexivity.
  - reflexivity.
  - reflexivity.
  - exists st', rec'. repeat split; try assumption. apply H5. lia.
Defined.

(** C9 as it is stated fails when the clock has not moved on: alice was
    approved at 2000; approving her again at the reading 2000 leaves the
    stamp 2000, and at the reading 1500 (a clock set back) writes the
    older stamp 1500.  Neither stamp is strictly newer. *)
Lemma reapproval_stamp_is_not_always_newer :
  query_get 1 (table after_approval) = Some (approve 2000 alice)
  /\ Registration.status (approve 2000 alice) = "approved"
  /\ Registration.approved_at (approve 2000 alice) = Some 2000
  /\ api_approve true 1 2000 after_approval
     = (Json 200 [("ok", JV (Py.VBool true))], after_approval)
  /\ (exists st',
        api_approve true 1 1500 after_approval
        = (Json 200 [("ok", JV (Py.VBool true))], st')
        /\ (Registration.approved_at <$> query_get 1 (table st'))
           = Some (Some 1500))
  /\ ~ (2000 < 2000) /\ ~ (2000 < 1500).
Proof.
  split; [vm_compute; reflexivity|]. split; [reflexivity|].
  split; [reflexivity|]. split; [vm_compute; reflexivity|].
  split; [|lia].
  eexists. split; [vm_compute; reflexivity|vm_compute; reflexivity].
Qed.

Lemma alice_regno_is_trimmed :
  (Registration.regno alice <> ""
   /\ Py.starts_with_space (Registration.regno alice) = false
   /\ Py.ends_with_space (Registration.regno alice) = false
   /\ Py.strip (Registration.regno alice) = Registration.regno alice)
  /\ ("A1" <> ""
      /\ Py.starts_with_space "A1" = false
      /\ Py.ends_with_space "A1" = false
      /\ Py.strip "A1" = "A1").
Proof.
  destruct (stored_regno_is_trimmed_and_lookup_needs_one
              after_upload after_upload_reachable) as [H1 H2].
  split.
  - apply H1. rewrite after_upload_table. left.
  - apply (H2 true "A1"
              [("id", JV (Py.VInt 1));
               ("data", JDict (Registration.data alice));
               ("status", JV (Py.VStr "pending"))]
              after_upload).
    vm_compute; reflexivity.
Defined.

(** * Further properties: the session *)

Lemma serve_gated_anonymous env c sess st path :
  Session.admin sess = false -> gated_path c = Some path ->
  serve env c sess st
  = (Redirect (UrlFor "admin_login" (Some path)) None, sess, st).
Proof.
  intros Hs Hp. unfold serve.
  destruct c; simpl in Hp; simplify_eq; rewrite Hs; reflexivity.
Qed.

(** X2.  The login view leaves an admin session exactly when the session
    was admin already or the call posts the configured user name and
    password; it answers with the redirect to the dashboard in exactly
    that case and with the login page otherwise; it flashes 'Invalid
    credentials' exactly on a POST from a session that is not admin with
    other credentials, and a missing form field counts as the empty
    string. *)
Theorem admin_login_grants_admin_iff_credentials
    (env : gmap string string) (sess : Session.t) (m : method)
    (form : gmap string string) :
  let o := admin_login env sess m form in
  (Session.admin (session o) = true
   <-> Session.admin sess = true \/ posts_credentials env (CallLogin m form))
  /\ (Session.admin (session o) = true ->
      exists msg, reply o = Redirect (UrlFor "admin_dashboard" None) msg)
  /\ (Session.admin (session o) = false ->
      reply o = Render "login.html" [] [] /\ session o = sess)
  /\ (flashed o = Some ("danger", "Invalid credentials")
      <-> Session.admin sess = false /\ m = POST
          /\ ~ posts_credentials env (CallLogin m form)).
Proof.
  unfold admin_login. destruct sess as [[]]; simpl.
  - split; [|split; [|split]].
    + split; [by left|done].
    + eauto.
    + discriminate.
    + split; [discriminate|]. intros (? & _). discriminate.
  - destruct m; simpl.
    + split; [|split; [|split]].
      * split; [discriminate|]. intros [?|[]]. discriminate.
      * discriminate.
      * done.
      * split; [discriminate|]. intros (_ & ? & _). discriminate.
    + case_decide as Hc; simpl.
      * split; [|split; [|split]].
        -- split; [by right|done].
        -- eauto.
        -- discriminate.
        -- split; [discriminate|]. intros (_ & _ & H). by destruct H.
      * split; [|split; [|split]].
        -- split; [discriminate|]. intros [?|?]; [discriminate|by destruct Hc].
        -- discriminate.
        -- done.
        -- split; [done|]. done.
Qed.

Lemma serve_all_cons env c cs sess st :
  serve_all env (c :: cs) sess st
  = serve_all env cs (serve env c sess st).1.2 (serve env c sess st).2.
Proof.
  unfold serve_all. simpl. by destruct (serve env c sess st) as [[r s'] st'].
Qed.

Lemma serve_without_credentials env c sess st :
  Session.admin sess = false -> ~ posts_credentials env c ->
  (serve env c sess st).1.2 = sess /\ (serve env c sess st).2 = st.
Proof.
  intros Hs Hc. destruct (gated_path c) as [path|] eqn:Hp.
  { by rewrite (serve_gated_anonymous _ _ _ _ _ Hs Hp). }
  destruct c; simpl in Hp; try discriminate; simpl.
  - done.
  - split; [|done]. unfold admin_login. rewrite Hs.
    destruct m; [done|]. simpl in Hc. by rewrite decide_False.
  - split; [|done]. by destruct sess as [[]].
Qed.

(** X3.  Without the credentials nothing happens: from a session that is
    not admin, calls of any routes in any number, none of which posts
    the configured user name and password to the login form, leave the
    session not admin and the store as it was; and after a logout that
    holds whatever the session was before. *)
Theorem calls_without_credentials_change_nothing
    (env : gmap string string) (cs : list call) (sess : Session.t)
    (st : store) :
  Forall (fun c => ~ posts_credentials env c) cs ->
  (Session.admin sess = false -> serve_all env cs sess st = (sess, st))
  /\ serve_all env (CallLogout :: cs) sess st = (Session.mk false, st).
Proof.
  intros Hcs.
  assert (H : forall s, Session.admin s = false ->
                        serve_all env cs s st = (s, st)).
  { induction Hcs as [|c cs Hc _ IH]; intros s Hs; [done|].
    rewrite serve_all_cons.
    destruct (serve_without_credentials env c s st Hs Hc) as [-> ->].
    by apply IH. }
  split; [apply H|]. rewrite serve_all_cons. simpl. by apply H.
Qed.

Lemma gated_store {A} (p : response * store) (sess : A) :
  (let '(r, st') := p in (r, sess, st')).2 = p.2.
Proof. by destruct p. Qed.

(** X4.  Only two things change the store: an upload that passes the
    checks and an approval of an id that a record has, each from an
    admin session.  Every other call, and each of these from a session
    that is not admin, leaves the table and the image folder as they
    were. *)
Theorem store_changes_only_by_upload_or_approval
    (env : gmap string string) (c : call) (sess : Session.t) (st : store) :
  (serve env c sess st).2 <> st ->
  Session.admin sess = true
  /\ ((exists f df clock,
         c = CallUpload POST (Some f) clock /\ valid_upload f df)
      \/ (exists rec_id now rec,
            c = CallApprove rec_id now
            /\ query_get rec_id (table st) = Some rec)).
Proof.
  intros Hne. destruct (Session.admin sess) eqn:Hs.
  2:{ destruct (gated_path c) as [path|] eqn:Hp.
      - by rewrite (serve_gated_anonymous _ _ _ _ _ Hs Hp) in Hne.
      - destruct c; by simpl in *. }
  split; [done|].
  destruct c; unfold serve in Hne; try rewrite Hs in Hne; try done;
    rewrite gated_store in Hne.
  - left. unfold upload in Hne.
    rewrite login_required_admin in Hne. unfold upload_view in Hne.
    destruct m; [done|]. destruct file as [f|]; [|done].
    case_decide as Hn; [done|].
    destruct (allowed_file (secure_filename f)) eqn:Ha; [|done]. simpl in Hne.
    destruct (read_file f) as [e|df] eqn:Hr; [done|].
    by exists f, df, clock.
  - unfold api_get_by_regno in Hne.
    rewrite login_required_admin in Hne. unfold api_get_by_regno_view in Hne.
    by destruct (first _).
  - right. unfold api_approve in Hne.
    rewrite login_required_admin in Hne. unfold api_approve_view in Hne.
    destruct (query_get rec_id (table st)) as [rec|] eqn:E; [|done].
    by exists rec_id, now, rec.
  - unfold admin_download_export in Hne.
    rewrite login_required_admin in Hne.
    unfold admin_download_export_view in Hne.
    by destruct (filter_by_status _ _).
Qed.

(** X5.  The upload view flashes a 'success' message exactly when the
    request is a POST with a file that has a name, an allowed extension
    and content the reader parses, and the save of the image returns for
    every row that counts, each after the saves of the rows before it.
    A request that is not such a POST (the form on GET, a missing file,
    a refused extension, a reader that raises) leaves the table and the
    images as they were.  A request that ends with status 500 leaves the
    table as it was and takes no saved image away. *)
Theorem upload_succeeds_iff_valid_and_saved
    (E : environment) (m : method) (file : option FileStorage)
    (clock : nat -> Z) (w : Raising.world) :
  ((exists to msg w',
      Raising.upload_view E m file clock w
      = (Answer (Redirect to (Some ("success", msg))), w'))
   <-> m = POST
       /\ exists f df, file = Some f /\ valid_upload f df
            /\ forall k r,
                 counted_ids (Registration.regno <$> Raising.rows w)
                             (identifiers df) !! k = Some r ->
                 saves_image E
                   (Raising.saved w
                    ++ (Raising.image_of E
                          <$> take k (counted_ids
                                        (Registration.regno <$> Raising.rows w)
                                        (identifiers df))))
                   r (OsPath.join (UPLOAD_FOLDER E) (r +:+ ".png")) = true)
  /\ (~ (m = POST /\ exists f df, file = Some f /\ valid_upload f df) ->
      (Raising.upload_view E m file clock w).2 = w)
  /\ ((Raising.upload_view E m file clock w).1 = InternalServerError ->
      Raising.rows (Raising.upload_view E m file clock w).2 = Raising.rows w
      /\ exists more,
           Raising.saved (Raising.upload_view E m file clock w).2
           = Raising.saved w ++ more).
Proof.
  split; [split|split].
  - intros (to & msg & w' & H). unfold Raising.upload_view in H.
    destruct m; [discriminate|]. split; [done|].
    destruct file as [f|]; [|discriminate].
    case_decide as Hn; [discriminate|].
    destruct (allowed_file (secure_filename f)) eqn:Ha; [|discriminate].
    simpl in H. destruct (read_file f) as [e|df] eqn:Hr; [discriminate|].
    exists f, df. split; [done|]. split; [done|].
    pose proof (ingest_agrees E clock df (Raising.rows w) (Raising.saved w) ∅)
      as Hagree. simpl in Hagree.
    destruct (Raising.ingest E clock df (Raising.rows w) (Raising.saved w) 0);
      [|discriminate].
    by destruct Hagree as (_ & _ & _ & Hsaves).
  - intros [-> (f & df & -> & (Hname & Hext & Hread) & Hsaves)].
    unfold Raising.upload_view.
    rewrite decide_False by done. rewrite Hext, Hread. simpl.
    pose proof (ingest_agrees E clock df (Raising.rows w) (Raising.saved w) ∅)
      as Hagree. simpl in Hagree.
    destruct (Raising.ingest E clock df (Raising.rows w) (Raising.saved w) 0);
      [eauto|].
    destruct Hagree as (k & r & Hk & -> & Hsave).
    rewrite (Hsaves k r Hk) in Hsave. discriminate.
  - intros Hnot. unfold Raising.upload_view.
    destruct m; [done|]. destruct file as [f|]; [|done].
    case_decide as Hn; [done|].
    destruct (allowed_file (secure_filename f)) eqn:Ha; [|done]. simpl.
    destruct (read_file f) as [e|df] eqn:Hr; [done|].
    destruct Hnot. split; [done|]. by exists f, df.
  - unfold Raising.upload_view.
    destruct m; [discriminate|]. destruct file as [f|]; [|discriminate].
    case_decide as Hn; [discriminate|].
    destruct (allowed_file (secure_filename f)) eqn:Ha; [|discriminate].
    simpl. destruct (read_file f) as [e|df] eqn:Hr; [discriminate|].
    pose proof (ingest_agrees E clock df (Raising.rows w) (Raising.saved w) ∅)
      as Hagree. simpl in Hagree.
    destruct (Raising.ingest E clock df (Raising.rows w) (Raising.saved w) 0);
      [discriminate|].
    intros _. simpl. split; [done|].
    destruct Hagree as (k & r & _ & -> & _). eauto.
Qed.

(** * Further properties: what the store always satisfies *)

(** The rows an upload appends, one by one. *)
Lemma ingest_new_rows clock df st :
  exists new,
    ingest clock df st
    = (Store (table st ++ new)
             (save_images (Registration.regno <$> new) (qrcodes st)),
       length new)
    /\ NoDup (Registration.regno <$> new)
    /\ (forall k r, new !! k = Some r ->
          Registration.id r = next_id (table st ++ take k new)
          /\ Registration.created_at r = clock k)
    /\ forall r, r ∈ new ->
         is_pending r
         /\ Registration.regno r <> ""
         /\ (Registration.regno r ∉ stored_regnos st)
         /\ exists row, row ∈ df
              /\ Registration.data r = to_text <$> row
              /\ Registration.regno r = regno_of (Registration.data r).
Proof.
  destruct (ingest_spec clock df st)
    as (new & Hrun & Hregnos & Hpend & Hfrom & Hkeys).
  exists new. rewrite Hregnos. split; [done|].
  split; [apply counted_ids_NoDup|]. split; [done|].
  intros r Hr. rewrite Forall_forall in Hpend. split; [by apply Hpend|].
  assert (H : Registration.regno r
              ∈ counted_ids (stored_regnos st) (identifiers df))
    by (rewrite <- Hregnos; by apply list_elem_of_fmap_2).
  apply elem_of_counted_ids in H as (_ & Hne & Hnew).
  split; [done|]. split; [done|].
  apply list_elem_of_lookup in Hr as [k Hk].
  destruct (Forall2_lookup_l _ _ _ _ _ Hfrom Hk) as (i & _ & row & Hi & Hd & Hg).
  exists row. split; [by eapply list_elem_of_lookup_2|].
  split; [done|]. by rewrite Hd.
Qed.

Lemma step_keeps_fields st rq i r :
  table st !! i = Some r ->
  exists r', table (step st rq) !! i = Some r'
    /\ Registration.id r' = Registration.id r
    /\ Registration.regno r' = Registration.regno r
    /\ Registration.data r' = Registration.data r
    /\ Registration.created_at r' = Registration.created_at r.
Proof.
  intros Hi.
  destruct (step_cases st rq) as [->|[(rec_id & now & ->)|(c & df & ->)]].
  - by exists r.
  - simpl. rewrite update_row_lookup, Hi. simpl.
    case_decide; [by exists (approve now r)|by exists r].
  - destruct (ingest_table c df st) as (new & -> & _).
    exists r. split; [by apply lookup_app_l_Some|done].
Qed.

(** X6.  No request deletes a record or rewrites what an upload stored:
    through any run of requests a record keeps its place in the table,
    its [id], its [regno], its [data] and its [created_at]. *)
Theorem stored_fields_never_change
    (rqs : list request) (st : store) (i : nat) (r : Registration.t) :
  table st !! i = Some r ->
  exists r', table (run rqs st) !! i = Some r'
    /\ Registration.id r' = Registration.id r
    /\ Registration.regno r' = Registration.regno r
    /\ Registration.data r' = Registration.data r
    /\ Registration.created_at r' = Registration.created_at r.
Proof.
  revert st r. induction rqs as [|rq rqs IH]; intros st r Hi.
  - by exists r.
  - destruct (step_keeps_fields st rq i r Hi) as (r1 & H1 & Ha & Hb & Hc & Hd).
    destruct (IH (step st rq) r1 H1) as (r2 & H2 & Ha' & Hb' & Hc' & Hd').
    exists r2. simpl. split; [done|]. repeat split; congruence.
Qed.

Lemma to_text_not_temporal v : Py.is_temporal (to_text v) = false.
Proof. by destruct v. Qed.

Lemma to_text_id v : Py.is_temporal v = false -> to_text v = v.
Proof. unfold to_text. by intros ->. Qed.

Lemma reachable_data (st : store) (r : Registration.t) :
  reachable st -> r ∈ table st ->
  (forall k v, Registration.data r !! k = Some v -> Py.is_temporal v = false)
  /\ to_text <$> Registration.data r = Registration.data r
  /\ Registration.regno r = regno_of (Registration.data r).
Proof.
  intros Hst Hr.
  assert (H : Forall (fun r =>
                (forall k v, Registration.data r !! k = Some v ->
                             Py.is_temporal v = false)
                /\ Registration.regno r = regno_of (Registration.data r))
              (table st)).
  { revert Hst. apply reachable_Forall.
    - by intros now r' H.
    - intros clock df st' H.
      destruct (ingest_new_rows clock df st') as (new & -> & _ & _ & Hnew).
      simpl. apply Forall_app. split; [done|]. apply Forall_forall.
      intros r' Hr'.
      destruct (Hnew r' Hr') as (_ & _ & _ & row & _ & Hd & Hg).
      split; [|done]. intros k v. rewrite Hd, lookup_fmap.
      destruct (row !! k) as [v0|]; [|done]. simpl. intros [= <-].
      apply to_text_not_temporal. }
  rewrite Forall_forall in H. destruct (H r Hr) as [Htext Hregno].
  split; [done|]. split; [|done].
  apply map_eq. intros k. rewrite lookup_fmap.
  destruct (Registration.data r !! k) as [v|] eqn:E; [|done]. simpl.
  by rewrite to_text_id by eauto.
Qed.

(** X7.  In every reachable store the [data] of a record holds no
    [datetime], [date] or [time] value (they were stored as text, so
    converting again changes nothing), and the [regno] of the record is
    the identifier that line 110 resolves from its own [data]. *)
Theorem stored_data_is_text_and_resolves_to_regno
    (st : store) (r : Registration.t) :
  reachable st -> r ∈ table st ->
  (forall k v, Registration.data r !! k = Some v -> Py.is_temporal v = false)
  /\ to_text <$> Registration.data r = Registration.data r
  /\ Registration.regno r = regno_of (Registration.data r).
Proof. apply reachable_data. Qed.

(** X8.  For every record of a reachable table the image of its
    [regno] has been saved: the saves hold one of the text [regno] at
    the path [os.path.join(UPLOAD_FOLDER, '<regno>.png')].  The image
    is saved before the record is stored, and a request that raises
    stores no record. *)
Theorem every_record_has_had_its_image_saved
    (E : environment) (w : Raising.world) (r : Registration.t) :
  Raising.reachable E w -> r ∈ Raising.rows w ->
  (OsPath.join (UPLOAD_FOLDER E) (Registration.regno r +:+ ".png"),
   Registration.regno r) ∈ Raising.saved w.
Proof.
  intros Hw. revert r.
  change (forall r, r ∈ Raising.rows w ->
            Raising.image_of E (Registration.regno r) ∈ Raising.saved w).
  induction Hw as [disk|w rq Hw IH]; intros r Hr.
  - by apply elem_of_nil in Hr.
  - destruct rq as [admin m file clock| |admin rec_id now| | |];
      try (by apply IH); simpl in Hr |- *.
    + unfold Raising.upload, Raising.login_required in Hr |- *.
      destruct admin; [|by apply IH].
      unfold Raising.upload_view in Hr |- *.
      destruct m; [by apply IH|]. destruct file as [f|]; [|by apply IH].
      case_decide; [by apply IH|].
      destruct (allowed_file (secure_filename f)); [|by apply IH].
      simpl in Hr |- *. destruct (read_file f) as [e|df]; [by apply IH|].
      pose proof (ingest_agrees E clock df (Raising.rows w)
                                (Raising.saved w) ∅) as Hagree.
      simpl in Hagree.
      destruct (ingest_spec clock df (Store (Raising.rows w) ∅))
        as (new & Hspec & Hregnos & _).
      rewrite Hspec in Hagree. simpl in Hagree.
      unfold stored_regnos in Hregnos. simpl in Hregnos.
      destruct (Raising.ingest E clock df (Raising.rows w) (Raising.saved w) 0)
        as [tbl1 disk1 c1|disk1]; simpl in Hr |- *.
      * destruct Hagree as (-> & _ & -> & _).
        apply elem_of_app in Hr as [Hr|Hr]; apply elem_of_app.
        -- left. by apply IH.
        -- right. rewrite <- Hregnos, <- list_fmap_compose.
           by apply (list_elem_of_fmap_2 (Raising.image_of E ∘ Registration.regno)).
      * destruct Hagree as (k & r0 & _ & -> & _).
        apply elem_of_app. left. by apply IH.
    + destruct admin; [|by apply IH].
      unfold Raising.api_approve_view in Hr |- *.
      destruct (Raising.query_get rec_id (Raising.rows w)) as [[rec|]|];
        try (by apply IH).
      simpl in Hr |- *. apply update_row_elem_of in Hr as (r0 & Hr0 & ->).
      specialize (IH r0 Hr0). by case_decide.
Qed.

(** ** Keys are 1, 2, 3, ... *)

Lemma max_id_app tbl1 tbl2 :
  max_id (tbl1 ++ tbl2) = Z.max (max_id tbl1) (max_id tbl2).
Proof.
  induction tbl1 as [|r tbl1 IH]; simpl.
  - assert (0 <= max_id tbl2); [|lia].
    induction tbl2 as [|r tbl2 IH']; simpl; lia.
  - fold (max_id (tbl1 ++ tbl2)). fold (max_id tbl1). rewrite IH. lia.
Qed.

Lemma max_id_consecutive tbl :
  (forall i r, tbl !! i = Some r -> Registration.id r = Z.of_nat i + 1) ->
  max_id tbl = Z.of_nat (length tbl).
Proof.
  induction tbl as [|x tbl IH] using rev_ind; intros H; [done|].
  rewrite max_id_app, length_app, IH.
  - simpl. rewrite (H (length tbl) x).
    + lia.
    + by rewrite lookup_app_r, Nat.sub_diag by lia.
  - intros i r Hi. apply H. by apply lookup_app_l_Some.
Qed.

Lemma consecutive_append tbl new :
  (forall i r, tbl !! i = Some r -> Registration.id r = Z.of_nat i + 1) ->
  (forall k r, new !! k = Some r ->
     Registration.id r = next_id (tbl ++ take k new)) ->
  forall i r, (tbl ++ new) !! i = Some r -> Registration.id r = Z.of_nat i + 1.
Proof.
  intros Htbl. induction new as [|x new IH] using rev_ind; intros Hkeys i r Hi.
  - rewrite app_nil_r in Hi. by apply Htbl.
  - assert (Hnew : forall i r, (tbl ++ new) !! i = Some r ->
                               Registration.id r = Z.of_nat i + 1).
    { apply IH. intros k r' Hk. apply lookup_lt_Some in Hk as Hlt.
      rewrite <- (take_app_le new [x] k) by lia.
      apply Hkeys. by apply lookup_app_l_Some. }
    rewrite (assoc_L (++)) in Hi.
    apply lookup_app_Some in Hi as [Hi|[Hge Hi]]; [by apply Hnew|].
    apply list_lookup_singleton_Some in Hi as [Hi <-].
    assert (Hx : Registration.id x = next_id (tbl ++ new)).
    { rewrite <- (take_app_length new [x]) at 1. apply Hkeys.
      by rewrite lookup_app_r, Nat.sub_diag by lia. }
    rewrite Hx. unfold next_id. rewrite (max_id_consecutive _ Hnew). lia.
Qed.

Lemma reachable_consecutive st :
  reachable st ->
  forall i r, table st !! i = Some r -> Registration.id r = Z.of_nat i + 1.
Proof.
  induction 1 as [files|st rq Hst IH]; intros i r Hi; [done|].
  destruct (step_cases st rq) as [Heq|[(rec_id & now & Heq)|(c & df & Heq)]];
    rewrite Heq in Hi.
  - by apply IH.
  - simpl in Hi. rewrite update_row_lookup in Hi.
    destruct (table st !! i) as [r0|] eqn:E; [|done]. simpl in Hi.
    injection Hi as <-. specialize (IH i r0 E). by case_decide.
  - destruct (ingest_new_rows c df st) as (new & Hrun & _ & Hkeys & _).
    rewrite Hrun in Hi. simpl in Hi.
    eapply consecutive_append; [exact IH| |exact Hi].
    intros k r' Hk. by apply Hkeys.
Qed.

(** ** The counts of the dashboard *)

Lemma count_status_cons status r tbl :
  count (filter_by_status status (r :: tbl))
  = ((if decide (Registration.status r = status) then 1 else 0)
     + count (filter_by_status status tbl))%nat.
Proof.
  unfold count, filter_by_status. rewrite filter_cons. by case_decide.
Qed.

Lemma counts_add_up (st : store) :
  reachable st ->
  (count (filter_by_status "pending" (table st))
   + count (filter_by_status "approved" (table st)))%nat
  = length (table st).
Proof.
  intros Hst. apply reachable_shape in Hst.
  induction Hst as [|r tbl Hr _ IH]; [done|].
  rewrite !count_status_cons. simpl. rewrite <- IH.
  destruct Hr as [[Hs _]|[Hs _]]; rewrite Hs; simpl; lia.
Qed.

(** X9.  In every reachable store the two counts of the dashboard add
    up to the number of records: a record is counted as pending or as
    approved, never as both and never as neither. *)
Theorem dashboard_counts_add_up (st : store) :
  reachable st ->
  (count (filter_by_status "pending" (table st))
   + count (filter_by_status "approved" (table st)))%nat
  = length (table st).
Proof. apply counts_add_up. Qed.

Lemma update_row_absent rec_id now tbl :
  rec_id ∉ (Registration.id <$> tbl) -> update_row rec_id now tbl = tbl.
Proof.
  intros H. unfold update_row. rewrite <- (list_fmap_id tbl) at 2.
  apply list_fmap_ext. intros i r Hi. simpl.
  case_decide as Hid; [|done]. destruct H. rewrite <- Hid.
  apply list_elem_of_fmap_2. by eapply list_elem_of_lookup_2.
Qed.

Lemma approve_counts tbl rec_id now rec :
  NoDup (Registration.id <$> tbl) ->
  query_get rec_id tbl = Some rec ->
  forall status, status <> "approved" -> Registration.status rec = status ->
  (count (filter_by_status status (update_row rec_id now tbl)) + 1)%nat
  = count (filter_by_status status tbl)
  /\ count (filter_by_status "approved" (update_row rec_id now tbl))
     = (count (filter_by_status "approved" tbl) + 1)%nat.
Proof.
  intros Hnd Hget status Hne Hst. induction tbl as [|r tbl IH]; [done|].
  rewrite fmap_cons in Hnd. apply NoDup_cons in Hnd as [Hr Hnd].
  unfold query_get in Hget. rewrite filter_cons in Hget.
  unfold update_row. rewrite fmap_cons. fold (update_row rec_id now tbl).
  rewrite !count_status_cons.
  destruct (decide (Registration.id r = rec_id)) as [Hid|Hid].
  - simpl in Hget. injection Hget as ->.
    rewrite update_row_absent by (by rewrite <- Hid). simpl.
    rewrite (decide_False (P := "approved" = status)) by done.
    rewrite Hst. rewrite decide_True by done.
    rewrite (decide_False (P := status = "approved")) by done. lia.
  - destruct (IH Hnd Hget) as [IH1 IH2]. rewrite IH2. lia.
Qed.

(** X10.  In a reachable store, approving a record that is pending moves
    exactly one record from the pending count to the approved count;
    approving a record that is approved already leaves both counts as
    they are. *)
Theorem approval_moves_one_record_between_counts
    (st : store) (rec_id now : Z) (rec : Registration.t) :
  reachable st ->
  query_get rec_id (table st) = Some rec ->
  let st' := (api_approve true rec_id now st).2 in
  (Registration.status rec = "pending" ->
   (count (filter_by_status "pending" (table st')) + 1)%nat
   = count (filter_by_status "pending" (table st))
   /\ count (filter_by_status "approved" (table st'))
      = (count (filter_by_status "approved" (table st)) + 1)%nat)
  /\ (Registration.status rec = "approved" ->
      count (filter_by_status "pending" (table st'))
      = count (filter_by_status "pending" (table st))
      /\ count (filter_by_status "approved" (table st'))
         = count (filter_by_status "approved" (table st))).
Proof.
  intros Hst Hget st'. subst st'. unfold api_approve.
  rewrite login_required_admin, (api_approve_view_found _ _ _ _ Hget). simpl.
  pose proof (reachable_unique_keys st Hst) as [_ Hnd].
  split.
  - intros Hs. by apply (approve_counts _ _ _ rec).
  - intros Hs.
    assert (Hst' : reachable (step st (ReqApprove true rec_id now)))
      by (by constructor).
    pose proof (counts_add_up _ Hst) as H1.
    pose proof (counts_add_up _ Hst') as H2.
    assert (Heq : step st (ReqApprove true rec_id now)
                  = Store (update_row rec_id now (table st)) (qrcodes st)).
    { unfold step, handle, api_approve.
      by rewrite login_required_admin, (api_approve_view_found _ _ _ _ Hget). }
    rewrite Heq in H2. simpl in H2. rewrite update_row_length in H2.
    assert (Hp : count (filter_by_status "pending"
                          (update_row rec_id now (table st)))
                 = count (filter_by_status "pending" (table st))).
    { clear H1 H2 Hst' Hst Heq. revert Hnd Hget.
      induction (table st) as [|r tbl IH]; [done|]. intros Hnd Hget.
      rewrite fmap_cons in Hnd. apply NoDup_cons in Hnd as [Hr Hnd].
      unfold query_get in Hget. rewrite filter_cons in Hget.
      unfold update_row. rewrite fmap_cons. fold (update_row rec_id now tbl).
      rewrite !count_status_cons.
      destruct (decide (Registration.id r = rec_id)) as [Hid|Hid].
      - simpl in Hget. injection Hget as ->.
        rewrite update_row_absent by (by rewrite <- Hid). simpl.
        rewrite Hs. by rewrite decide_False.
      - by rewrite IH. }
    split; [done|]. lia.
Qed.

(** ** Approvals one after the other, and the export after them *)

Lemma approve_step st rec_id now :
  step st (ReqApprove true rec_id now)
  = Store (update_row rec_id now (table st)) (qrcodes st).
Proof.
  unfold step, handle, api_approve. rewrite login_required_admin.
  unfold api_approve_view.
  destruct (query_get rec_id (table st)) as [rec|] eqn:E; [done|]. simpl.
  rewrite update_row_absent; [by destruct st|].
  rewrite query_get_None in E.
  intros (r & Hid & Hr)%list_elem_of_fmap. by apply (E r Hr).
Qed.

Lemma update_row_twice a now1 now2 tbl :
  update_row a now2 (update_row a now1 tbl) = update_row a now2 tbl.
Proof.
  unfold update_row. rewrite <- list_fmap_compose. apply list_fmap_ext.
  intros i r _. unfold compose.
  repeat (case_decide; simpl in * ); try done; congruence.
Qed.

Lemma update_row_comm a b now1 now2 tbl :
  a <> b ->
  update_row b now2 (update_row a now1 tbl)
  = update_row a now1 (update_row b now2 tbl).
Proof.
  intros Hab. unfold update_row. rewrite <- !list_fmap_compose.
  apply list_fmap_ext. intros i r _. unfold compose.
  repeat (case_decide; simpl in * ); congruence.
Qed.

(** X11.  Approvals of two different ids give the same store in either
    order; two approvals of the same id leave the store that the second
    alone leaves: the later stamp wins. *)
Theorem approvals_commute_and_the_last_stamp_wins
    (st : store) (a b now1 now2 : Z) :
  (a <> b ->
   step (step st (ReqApprove true a now1)) (ReqApprove true b now2)
   = step (step st (ReqApprove true b now2)) (ReqApprove true a now1))
  /\ step (step st (ReqApprove true a now1)) (ReqApprove true a now2)
     = step st (ReqApprove true a now2).
Proof.
  rewrite !approve_step. simpl. split.
  - intros Hab. by rewrite update_row_comm.
  - by rewrite update_row_twice.
Qed.


(** ** Looking up after an upload *)

Lemma first_filter_by_regno_app regno tbl new :
  first (filter_by_regno regno (tbl ++ new))
  = match first (filter_by_regno regno tbl) with
    | Some rec => Some rec
    | None => first (filter_by_regno regno new)
    end.
Proof.
  unfold first, filter_by_regno. rewrite filter_app.
  by destruct (filter _ tbl).
Qed.

Lemma lookup_reply regno st :
  (api_get_by_regno true regno st).1
  = match first (filter_by_regno regno (table st)) with
    | None => not_found
    | Some rec =>
        Json 200 [("id", JV (Py.VInt (Registration.id rec)));
                  ("data", JDict (Registration.data rec));
                  ("status", JV (Py.VStr (Registration.status rec)))]
    end.
Proof.
  unfold api_get_by_regno. rewrite login_required_admin.
  unfold api_get_by_regno_view. by destruct (first _).
Qed.

(** What a lookup answers after the loop in which every save returns. *)
Lemma lookup_after_returning_upload
    (f : FileStorage) (df : list (gmap string Py.value))
    (clock : nat -> Z) (st : store) (regno : string) :
  valid_upload f df ->
  let st' := (upload true POST (Some f) clock st).2 in
  (regno ∈ stored_regnos st \/ regno ∉ identifiers df \/ regno = "" ->
   (api_get_by_regno true regno st').1 = (api_get_by_regno true regno st).1)
  /\ ((regno ∉ stored_regnos st) -> regno ∈ identifiers df -> regno <> "" ->
      exists i row rec,
        identifiers df !! i = Some regno
        /\ (regno ∉ take i (identifiers df))
        /\ df !! i = Some row
        /\ (api_get_by_regno true regno st').1
           = Json 200 [("id", JV (Py.VInt (Registration.id rec)));
                       ("data", JDict (to_text <$> row));
                       ("status", JV (Py.VStr "pending"))]).
Proof.
  intros Hvalid st'.
  destruct (ingest_spec clock df st)
    as (new & Hrun & Hregnos & Hpend & Hfrom & _).
  assert (Hst' : table st' = table st ++ new).
  { subst st'. unfold upload.
    by rewrite login_required_admin, (upload_view_valid _ _ _ _ Hvalid), Hrun. }
  rewrite !lookup_reply, Hst', first_filter_by_regno_app. split.
  - intros Hcase.
    destruct (first (filter_by_regno regno (table st))) as [rec|] eqn:E;
      [done|].
    assert (Hnone : first (filter_by_regno regno new) = None).
    { apply first_filter_by_regno_None. rewrite Hregnos, elem_of_counted_ids.
      apply first_filter_by_regno_None in E. unfold stored_regnos in Hcase.
      tauto. }
    by rewrite Hnone.
  - intros Hnew Hin Hne.
    assert (E : first (filter_by_regno regno (table st)) = None)
      by (by apply first_filter_by_regno_None).
    rewrite E.
    destruct (first (filter_by_regno regno new)) as [rec|] eqn:En.
    2:{ apply first_filter_by_regno_None in En. destruct En.
        rewrite Hregnos. by apply elem_of_counted_ids. }
    apply first_filter_by_regno_Some in En as [Hrec Hregno].
    apply list_elem_of_lookup in Hrec as [k Hk].
    destruct (Forall2_lookup_l _ _ _ _ _ Hfrom Hk)
      as (i & Hi & row & Hrow & Hdata & Hreg).
    assert (Hc : counts_at (stored_regnos st) (identifiers df) i).
    { apply list_elem_of_lookup_2 in Hi. unfold counted_rows in Hi.
      by apply list_elem_of_filter in Hi as [Hi _]. }
    destruct Hc as (r0 & Hr0 & _ & _ & Hfirst).
    assert (r0 = regno) as ->.
    { unfold identifiers in Hr0. rewrite list_lookup_fmap, Hrow in Hr0.
      simpl in Hr0. congruence. }
    exists i, row, rec. repeat split; try done.
    rewrite Forall_forall in Hpend.
    destruct (Hpend rec (list_elem_of_lookup_2 _ _ _ Hk)) as [-> _].
    by rewrite Hdata.
Qed.

Lemma lookup_reply_table regno st1 st2 :
  table st1 = table st2 ->
  (api_get_by_regno true regno st1).1 = (api_get_by_regno true regno st2).1.
Proof. intros H. by rewrite !lookup_reply, H. Qed.

(** X13.  What a lookup answers after a valid upload.  When the upload
    ends with status 500 every lookup answers what it answered before.
    When the upload is answered: for a regno that was in the table, and
    for one that is not a non-empty identifier of the file, the answer
    is the one before the upload, for an upload never rewrites a record
    that exists, even when the file carries other data for it; for a new
    non-empty identifier of the file the answer is a pending record
    holding the data of the first row that resolves to it. *)
Theorem lookup_after_upload
    (E : environment) (f : FileStorage) (df : list (gmap string Py.value))
    (clock : nat -> Z) (w w' : Raising.world) (a : answer) (regno : string) :
  valid_upload f df ->
  Raising.upload E true POST (Some f) clock w = (a, w') ->
  let stored := Registration.regno <$> Raising.rows w in
  let lookup w := (api_get_by_regno true regno (Raising.as_store w)).1 in
  (a = InternalServerError -> lookup w' = lookup w)
  /\ (a <> InternalServerError ->
      (regno ∈ stored \/ regno ∉ identifiers df \/ regno = "" ->
       lookup w' = lookup w)
      /\ ((regno ∉ stored) -> regno ∈ identifiers df -> regno <> "" ->
          exists i row rec,
            identifiers df !! i = Some regno
            /\ (regno ∉ take i (identifiers df))
            /\ df !! i = Some row
            /\ lookup w'
               = Json 200 [("id", JV (Py.VInt (Registration.id rec)));
                           ("data", JDict (to_text <$> row));
                           ("status", JV (Py.VStr "pending"))])).
Proof.
  intros Hvalid Hrun stored lookup. subst lookup.
  pose proof Hvalid as (Hname & Hext & Hread).
  unfold Raising.upload, Raising.login_required, Raising.upload_view in Hrun.
  rewrite decide_False in Hrun by done. rewrite Hext, Hread in Hrun.
  simpl in Hrun.
  pose proof (ingest_agrees E clock df (Raising.rows w) (Raising.saved w) ∅)
    as Hagree. simpl in Hagree.
  destruct (Raising.ingest E clock df (Raising.rows w) (Raising.saved w) 0)
    as [tbl1 disk1 c1|disk1]; injection Hrun as <- <-.
  - split; [discriminate|]. intros _.
    destruct Hagree as (Htbl & _).
    pose proof (lookup_after_returning_upload
                  f df clock (Raising.as_store w) regno Hvalid) as Hold.
    simpl in Hold.
    assert (Hsame : table (Raising.as_store (Raising.World tbl1 disk1))
                    = table (upload true POST (Some f) clock
                                    (Raising.as_store w)).2).
    { unfold upload.
      rewrite login_required_admin, (upload_view_valid _ _ _ _ Hvalid).
      simpl. by rewrite Htbl. }
    rewrite (lookup_reply_table regno _ _ Hsame). exact Hold.
  - split; [|done]. intros _. by apply lookup_reply_table.
Qed.

(** ** The count of an upload *)

(** X15.  The summary count of an upload is at most the number of rows
    of the file; the table grows by exactly that count; and the count is
    zero exactly when the upload left the store as it was. *)
Theorem upload_count_is_the_growth_of_the_table
    (clock : nat -> Z) (df : list (gmap string Py.value)) (st : store) :
  let r := ingest clock df st in
  (r.2 <= length df)%nat
  /\ length (table r.1) = (length (table st) + r.2)%nat
  /\ (r.2 = 0%nat <-> r.1 = st).
Proof.
  intros r. subst r.
  destruct (ingest_spec clock df st) as (new & Hrun & Hregnos & _ & Hfrom & _).
  rewrite Hrun. simpl. split; [|split].
  - rewrite (Forall2_length _ _ _ Hfrom). unfold counted_rows.
    etrans; [apply length_filter|]. rewrite length_seq.
    unfold identifiers. by rewrite length_fmap.
  - by rewrite length_app.
  - split.
    + intros Hz. destruct new; [|done].
      rewrite <- Hregnos. simpl. rewrite app_nil_r. by destruct st.
    + intros Heq. apply (f_equal (fun s => length (table s))) in Heq.
      simpl in Heq. rewrite length_app in Heq. lia.
Qed.

(** ** The list of the dashboard *)

Lemma newer_eq_transitive : Transitive newer_eq.
Proof. intros a b c. unfold newer_eq. lia. Qed.

Lemma newer_eq_total : Total newer_eq.
Proof. intros a b. unfold newer_eq. lia. Qed.

Lemma newest_first_sorted q : StronglySorted newer_eq (newest_first q).
Proof.
  pose proof newer_eq_transitive. pose proof newer_eq_total.
  apply StronglySorted_merge_sort; apply _.
Qed.

Lemma StronglySorted_lookup_lt {A} (R : relation A) l i j x y :
  StronglySorted R l -> (i < j)%nat -> l !! i = Some x -> l !! j = Some y ->
  R x y.
Proof.
  intros Hl Hij Hi Hj. rewrite <- (take_drop j l) in Hl.
  eapply StronglySorted_app_1_elem_of; [exact Hl| |].
  - apply elem_of_take. eauto.
  - apply list_elem_of_lookup. exists 0%nat.
    by rewrite lookup_drop, Nat.add_0_r.
Qed.

(** X16.  The dashboard shows the two counts and a list of pending
    records: the list holds at most ten records, all of them pending
    records of the table, the newest first; all pending records when
    there are at most ten; and no pending record that is left out was
    created later than one that is listed.  The store is not touched. *)
Theorem dashboard_lists_the_newest_pending (st : store) :
  let pending :=
    filter (fun r => Registration.status r = "pending") (table st) in
  let approved :=
    filter (fun r => Registration.status r = "approved") (table st) in
  exists recent,
    admin_dashboard true st
    = (Render "admin_dashboard.html"
              [("pending_count", length pending);
               ("approved_count", length approved)] recent, st)
    /\ length recent = Nat.min 10 (length pending)
    /\ (forall r, r ∈ recent -> r ∈ pending)
    /\ (forall i j r1 r2, (i < j)%nat ->
          recent !! i = Some r1 -> recent !! j = Some r2 ->
          Registration.created_at r2 <= Registration.created_at r1)
    /\ ((length pending <= 10)%nat -> recent ≡ₚ pending)
    /\ (forall r r', r ∈ pending -> r ∉ recent -> r' ∈ recent ->
          Registration.created_at r <= Registration.created_at r').
Proof.
  intros pending approved.
  exists (take 10 (newest_first pending)).
  pose proof (newest_first_sorted pending) as Hsorted.
  assert (Hperm : newest_first pending ≡ₚ pending)
    by apply merge_sort_Permutation.
  split; [done|]. split; [|split; [|split; [|split]]].
  - by rewrite length_take, Hperm.
  - intros r Hr. rewrite <- Hperm.
    apply elem_of_take in Hr as (i & Hi & _).
    by eapply list_elem_of_lookup_2.
  - intros i j r1 r2 Hij Hi Hj.
    apply (StronglySorted_lookup_lt newer_eq (take 10 (newest_first pending))
             i j r1 r2); try done.
    rewrite <- (take_drop 10 (newest_first pending)) in Hsorted.
    by apply StronglySorted_app_1_l in Hsorted.
  - intros Hle. rewrite take_ge; [done|]. by rewrite Hperm.
  - intros r r' Hr Hout Hin.
    rewrite <- (take_drop 10 (newest_first pending)) in Hsorted.
    apply (StronglySorted_app_1_elem_of _ _ _ r' r Hsorted Hin).
    rewrite <- Hperm, <- (take_drop 10 (newest_first pending)) in Hr.
    apply elem_of_app in Hr as [Hr|Hr]; [by destruct Hout|done].
Qed.

(** * Further properties: file names *)

Lemma substring_0_all s : String.substring 0 (String.length s) s = s.
Proof. induction s as [|c s IH]; [done|]. simpl. by rewrite IH. Qed.

Lemma substring_append_r a b k m :
  String.substring (String.length a + k) m (a +:+ b) = String.substring k m b.
Proof. induction a as [|c a IH]; [done|]. rewrite append_cons. exact IH. Qed.

Lemma substring_append_prefix a b :
  String.substring 0 (String.length a) (a +:+ b) = a.
Proof.
  induction a as [|c a IH]; [by destruct b|].
  rewrite append_cons. simpl. by rewrite IH.
Qed.

Lemma substring_append_suffix a b :
  String.substring (String.length a) (String.length b) (a +:+ b) = b.
Proof.
  induction a as [|c a IH]; [apply substring_0_all|].
  rewrite append_cons. exact IH.
Qed.

Lemma substring_split n s :
  (n <= String.length s)%nat ->
  String.substring 0 n s +:+ String.substring n (String.length s - n) s = s.
Proof.
  revert n. induction s as [|c s IH]; intros n Hn.
  - destruct n; simpl in *; [done|lia].
  - destruct n as [|n].
    + rewrite Nat.sub_0_r. change (String.substring 0 0 (String c s)) with "".
      by rewrite append_nil_l, substring_0_all.
    + simpl in Hn.
      change (String.substring 0 (S n) (String c s))
        with (String c (String.substring 0 n s)).
      change (String.substring (S n) (String.length (String c s) - S n)
                               (String c s))
        with (String.substring n (String.length s - n) s).
      rewrite append_cons, IH by lia. done.
Qed.

Lemma length_substring_0 n s :
  (n <= String.length s)%nat -> String.length (String.substring 0 n s) = n.
Proof.
  revert n. induction s as [|c s IH]; intros [|n] Hn; simpl in *; try lia.
  by rewrite IH by lia.
Qed.

Lemma get_append_l a b i :
  (i < String.length a)%nat -> String.get i (a +:+ b) = String.get i a.
Proof.
  revert i. induction a as [|c a IH]; intros i Hi; simpl in Hi; [lia|].
  rewrite append_cons. destruct i as [|i]; [done|]. simpl. apply IH. lia.
Qed.

Lemma rfind_from_bounds c s i last :
  OsPath.rfind_from c s i last = last
  \/ i <= OsPath.rfind_from c s i last < i + Z.of_nat (String.length s).
Proof.
  revert i last. induction s as [|a s IH]; intros i last; [by left|].
  simpl String.length. simpl OsPath.rfind_from.
  destruct (IH (i + 1) (if Ascii.eqb a c then i else last)) as [->|H].
  - destruct (Ascii.eqb a c); [right; lia|by left].
  - right. lia.
Qed.

Lemma rfind_from_append c a b i last :
  OsPath.rfind_from c (a +:+ b) i last
  = OsPath.rfind_from c b (i + Z.of_nat (String.length a))
                      (OsPath.rfind_from c a i last).
Proof.
  revert i last. induction a as [|x a IH]; intros i last.
  - simpl. by rewrite Z.add_0_r.
  - rewrite append_cons. simpl OsPath.rfind_from. rewrite IH.
    simpl String.length. f_equal. lia.
Qed.

Lemma has_non_dot_append a b :
  OsPath.has_non_dot (a +:+ b) 0 (String.length a)
  = OsPath.has_non_dot a 0 (String.length a).
Proof.
  unfold OsPath.has_non_dot. rewrite Nat.sub_0_r.
  assert (H : forall l, Forall (fun i => (i < String.length a)%nat) l ->
            existsb (fun i => match String.get i (a +:+ b) with
                              | Some x => negb (Ascii.eqb x ".")
                              | None => false
                              end) l
            = existsb (fun i => match String.get i a with
                                | Some x => negb (Ascii.eqb x ".")
                                | None => false
                                end) l).
  { induction 1 as [|i l Hi _ IH]; [done|]. simpl.
    by rewrite IH, get_append_l. }
  apply H, Forall_forall. intros i Hi%elem_of_seq. lia.
Qed.

Lemma lower_char_idemp c : Py.lower_char (Py.lower_char c) = Py.lower_char c.
Proof. destruct c as [[] [] [] [] [] [] [] []]; reflexivity. Qed.

Lemma lower_idemp s : Py.lower (Py.lower s) = Py.lower s.
Proof.
  induction s as [|c s IH]; [done|]. simpl. by rewrite lower_char_idemp, IH.
Qed.

Lemma splitext_join p : (OsPath.splitext p).1 +:+ (OsPath.splitext p).2 = p.
Proof.
  unfold OsPath.splitext.
  destruct (_ && _) eqn:E; simpl.
  - apply substring_split.
    destruct (rfind_from_bounds "." p 0 (-1)) as [H|H];
      unfold OsPath.rfind; [rewrite H|]; simpl; lia.
  - clear E. induction p as [|c p IH]; [done|].
    rewrite append_cons. by rewrite IH.
Qed.

Lemma splitext_stem p :
  (OsPath.splitext p).2 <> "" -> (OsPath.splitext p).1 <> "".
Proof.
  unfold OsPath.splitext.
  destruct (_ && _) eqn:E; simpl; [|done]. intros _.
  apply andb_true_iff in E as [Hlt Hdot].
  apply Z.ltb_lt in Hlt.
  assert (Hd : (1 <= Z.to_nat (OsPath.rfind "." p))%nat).
  { unfold OsPath.has_non_dot in Hdot.
    apply existsb_exists in Hdot as (i & Hi & _).
    apply in_seq in Hi.
    destruct (rfind_from_bounds "/" p 0 (-1)) as [H|H];
      unfold OsPath.rfind in *; [rewrite H in *|]; lia. }
  intros Hroot. apply (f_equal String.length) in Hroot.
  rewrite length_substring_0 in Hroot; [simpl in Hroot; lia|].
  destruct (rfind_from_bounds "." p 0 (-1)) as [H|H];
    unfold OsPath.rfind in *; [rewrite H in *; simpl in *|]; lia.
Qed.

Lemma elem_of_ALLOWED_EXT ext :
  ext ∈ ALLOWED_EXT <-> ext = ".xlsx" \/ ext = ".xls" \/ ext = ".csv".
Proof.
  unfold ALLOWED_EXT. rewrite !elem_of_union, !elem_of_singleton. tauto.
Qed.

Lemma splitext_plain stem ext :
  ext ∈ ALLOWED_EXT ->
  OsPath.rfind "/" stem = -1 ->
  OsPath.has_non_dot stem 0 (String.length stem) = true ->
  OsPath.splitext (stem +:+ ext) = (stem, ext).
Proof.
  intros Hext Hslash Hdot. unfold OsPath.splitext.
  assert (Hs : OsPath.rfind "/" (stem +:+ ext) = -1).
  { unfold OsPath.rfind in *. rewrite rfind_from_append, Hslash.
    apply elem_of_ALLOWED_EXT in Hext as [->|[->| ->]]; reflexivity. }
  assert (Hd : OsPath.rfind "." (stem +:+ ext)
               = Z.of_nat (String.length stem)).
  { unfold OsPath.rfind. rewrite rfind_from_append.
    apply elem_of_ALLOWED_EXT in Hext as [->|[->| ->]]; reflexivity. }
  rewrite Hs, Hd. simpl Z.to_nat. rewrite Nat2Z.id, has_non_dot_append, Hdot.
  replace (-1 <? Z.of_nat (String.length stem)) with true
    by (symmetry; apply Z.ltb_lt; lia).
  simpl. f_equal.
  - apply substring_append_prefix.
  - rewrite length_append.
    replace (String.length stem + String.length ext - String.length stem)%nat
      with (String.length ext) by lia.
    apply substring_append_suffix.
Qed.

Lemma endswith_append stem ext suffix :
  (String.length suffix <= String.length ext)%nat ->
  Py.endswith (stem +:+ ext) suffix = Py.endswith ext suffix.
Proof.
  intros Hle. unfold Py.endswith. rewrite length_append.
  replace (String.length stem + String.length ext - String.length suffix)%nat
    with (String.length stem + (String.length ext - String.length suffix))%nat
    by lia.
  rewrite substring_append_r.
  destruct (Nat.leb_spec (String.length suffix) (String.length ext)); [|lia].
  destruct (Nat.leb_spec (String.length suffix)
                         (String.length stem + String.length ext)); [done|lia].
Qed.

(** X17.  A file name is allowed only if, in lower case, it is a stem
    that is not empty followed by '.xlsx', '.xls' or '.csv'; a name
    without a slash is allowed whenever it is such a stem, with a
    character other than the dot, followed by one of the three; and
    the case of the name does not matter. *)
Theorem allowed_file_is_a_stem_and_an_allowed_extension (name : string) :
  (allowed_file name = true ->
   exists stem ext,
     Py.lower name = stem +:+ ext /\ stem <> "" /\ ext ∈ ALLOWED_EXT)
  /\ (forall stem ext,
        Py.lower name = stem +:+ ext -> ext ∈ ALLOWED_EXT ->
        OsPath.rfind "/" stem = -1 ->
        OsPath.has_non_dot stem 0 (String.length stem) = true ->
        allowed_file name = true)
  /\ allowed_file (Py.lower name) = allowed_file name.
Proof.
  unfold allowed_file. split; [|split].
  - intros H. apply bool_decide_eq_true in H.
    exists (OsPath.splitext (Py.lower name)).1,
           (OsPath.splitext (Py.lower name)).2.
    split; [by rewrite splitext_join|]. split; [|done].
    apply splitext_stem. intros Hempty. rewrite Hempty in H.
    apply elem_of_ALLOWED_EXT in H as [?|[?|?]]; discriminate.
  - intros stem ext Hname Hext Hslash Hdot.
    rewrite Hname, (splitext_plain _ _ Hext Hslash Hdot). simpl.
    by apply bool_decide_eq_true.
  - by rewrite lower_idemp.
Qed.

(** X18.  For an allowed file the reader follows the extension: the
    CSV reader exactly for '.csv', the workbook reader for '.xlsx' and
    '.xls'. *)
Theorem reader_follows_the_extension (f : FileStorage) :
  allowed_file (secure_filename f) = true ->
  let ext := (OsPath.splitext (Py.lower (secure_filename f))).2 in
  (ext = ".csv" /\ read_file f = read_csv f)
  \/ ((ext = ".xlsx" \/ ext = ".xls") /\ read_file f = read_excel f).
Proof.
  intros H ext. unfold allowed_file in H. apply bool_decide_eq_true in H.
  fold ext in H. unfold read_file.
  rewrite <- (splitext_join (Py.lower (secure_filename f))). fold ext.
  apply elem_of_ALLOWED_EXT in H as [Hx|[Hx|Hx]]; rewrite Hx;
    rewrite endswith_append by (simpl; lia).
  - right. split; [by left|reflexivity].
  - right. split; [by right|reflexivity].
  - left. split; reflexivity.
Qed.

(** * Further properties: the configuration *)

(** X19.  When the environment sets neither [ADMIN_USER] nor
    [ADMIN_PASS], the login form accepts 'admin' with 'password': the
    fallbacks of lines 13-14 are live credentials. *)
Theorem unset_environment_accepts_the_fallback_credentials
    (env : gmap string string) (form : gmap string string) :
  env !! "ADMIN_USER" = None ->
  env !! "ADMIN_PASS" = None ->
  form !! "username" = Some "admin" ->
  form !! "password" = Some "password" ->
  admin_login env (Session.mk false) POST form
  = Outcome (Some ("success", "Logged in as admin"))
            (Redirect (UrlFor "admin_dashboard" None)
                      (Some ("success", "Logged in as admin")))
            (Session.mk true).
Proof.
  intros Hu Hp Hfu Hfp. unfold admin_login. simpl.
  rewrite decide_True; [done|].
  unfold form_get, ADMIN_USER, ADMIN_PASS, environ_get.
  by rewrite Hu, Hp, Hfu, Hfp.
Qed.

(** * Further properties: uniqueness, and round trips through the store *)

(** X20.  In every reachable store a [regno] names one record and an
    [id] names one record: two rows at different places of the table
    differ in their [regno] and in their [id]. *)
Theorem two_records_differ_in_regno_and_id
    (st : store) (i j : nat) (r1 r2 : Registration.t) :
  reachable st ->
  table st !! i = Some r1 -> table st !! j = Some r2 -> i <> j ->
  Registration.regno r1 <> Registration.regno r2
  /\ Registration.id r1 <> Registration.id r2.
Proof.
  intros Hst H1 H2 Hij. apply reachable_unique_keys in Hst as [Hr Hi].
  split; intros Heq; apply Hij.
  - apply (NoDup_lookup _ i j (Registration.regno r1) Hr);
      rewrite list_lookup_fmap; [by rewrite H1|by rewrite H2, Heq].
  - apply (NoDup_lookup _ i j (Registration.id r1) Hi);
      rewrite list_lookup_fmap; [by rewrite H1|by rewrite H2, Heq].
Qed.

(** X21.  The stored data goes round: in a reachable store, a file
    whose rows are the [data] of the records is recognised row by row
    as stored already; uploading it adds nothing and reports 0. *)
Theorem stored_data_uploaded_again_adds_nothing
    (st : store) (clock : nat -> Z) :
  reachable st ->
  ingest clock (Registration.data <$> table st) st = (st, 0%nat).
Proof.
  intros Hst. apply ingest_nothing_new, counted_ids_all_stored.
  intros r Hr. right. unfold identifiers in Hr.
  rewrite <- list_fmap_compose in Hr.
  apply list_elem_of_fmap in Hr as (x & -> & Hx). simpl.
  destruct (reachable_data st x Hst Hx) as (_ & -> & <-).
  unfold stored_regnos. by apply list_elem_of_fmap_2.
Qed.

Lemma filter_by_regno_update_row regno rec_id now tbl :
  filter_by_regno regno (update_row rec_id now tbl)
  = update_row rec_id now (filter_by_regno regno tbl).
Proof.
  unfold filter_by_regno, update_row.
  induction tbl as [|r tbl IH]; [done|].
  rewrite fmap_cons, !filter_cons, IH.
  destruct (decide (Registration.id r = rec_id)); simpl;
    destruct (decide (Registration.regno r = regno)); try done;
    rewrite fmap_cons; by rewrite ?decide_True, ?decide_False by done.
Qed.

(** X22.  A lookup after an approval, in a reachable store: for the
    regno of the approved record it answers with the same [id] and
    [data] and the status 'approved'; for every other regno it answers
    what it answered before. *)
Theorem lookup_after_approval
    (st : store) (rec_id now : Z) (rec : Registration.t) :
  reachable st ->
  query_get rec_id (table st) = Some rec ->
  let st' := (api_approve true rec_id now st).2 in
  (api_get_by_regno true (Registration.regno rec) st').1
  = Json 200 [("id", JV (Py.VInt (Registration.id rec)));
              ("data", JDict (Registration.data rec));
              ("status", JV (Py.VStr "approved"))]
  /\ forall regno, regno <> Registration.regno rec ->
       (api_get_by_regno true regno st').1
       = (api_get_by_regno true regno st).1.
Proof.
  intros Hst Hget st'.
  assert (Hst' : table st' = update_row rec_id now (table st)).
  { subst st'. unfold api_approve.
    by rewrite login_required_admin, (api_approve_view_found _ _ _ _ Hget). }
  pose proof (reachable_unique_keys st Hst) as [Hur Hui].
  apply query_get_Some in Hget as [Hrec Hid].
  assert (Hhead : forall regno,
            first (filter_by_regno regno (table st'))
            = (fun r => if decide (Registration.id r = rec_id)
                        then approve now r else r)
                <$> first (filter_by_regno regno (table st))).
  { intros regno. rewrite Hst', filter_by_regno_update_row.
    unfold first, update_row. by destruct (filter_by_regno regno (table st)). }
  split.
  - rewrite lookup_reply, Hhead.
    destruct (first (filter_by_regno (Registration.regno rec) (table st)))
      as [x|] eqn:E.
    + apply first_filter_by_regno_Some in E as [Hx Hregno].
      assert (x = rec) as ->
        by (by apply (NoDup_fmap_eq Registration.regno (table st))).
      simpl. by rewrite decide_True.
    + apply first_filter_by_regno_None in E. destruct E.
      by apply list_elem_of_fmap_2.
  - intros regno Hne. rewrite !lookup_reply, Hhead.
    destruct (first (filter_by_regno regno (table st))) as [x|] eqn:E;
      [|done].
    apply first_filter_by_regno_Some in E as [Hx Hregno]. simpl.
    rewrite decide_False; [done|]. intros Hidx. destruct Hne.
    assert (x = rec) as ->; [|done].
    apply (NoDup_fmap_eq Registration.id (table st)); try done. congruence.
Qed.

(** * Further properties: the two layers *)

(** X23.  Every table that the application reaches with saves that raise
    and keys that SQLite refuses is a table that it reaches when every
    call returns: a request that raises leaves the table as it was, and
    one that does not raise leaves the table of the same request in the
    first layer.  So what holds of every reachable store holds of these
    tables: a [regno] and an [id] name one record each, every record is
    'pending' without a stamp or 'approved' with one, and every [regno]
    is trimmed and not empty. *)
Theorem tables_with_raising_calls_are_reachable
    (E : environment) (w : Raising.world) :
  Raising.reachable E w ->
  (exists st, reachable st /\ table st = Raising.rows w)
  /\ NoDup (Registration.regno <$> Raising.rows w)
  /\ NoDup (Registration.id <$> Raising.rows w)
  /\ forall r, r ∈ Raising.rows w ->
       (is_pending r \/ is_approved r)
       /\ Registration.regno r <> "" /\ trimmed (Registration.regno r).
Proof.
  intros Hw.
  assert (H : exists st, reachable st /\ table st = Raising.rows w).
  { induction Hw as [disk|w rq Hw (st & Hst & Htbl)].
    - exists (Store [] ∅). split; [constructor|done].
    - destruct rq as [admin m file clock| |admin rec_id now| | |];
        try (by exists st); simpl.
      + unfold Raising.upload, Raising.login_required.
        destruct admin; [|by exists st]. unfold Raising.upload_view.
        destruct m; [by exists st|]. destruct file as [f|]; [|by exists st].
        case_decide as Hn; [by exists st|].
        destruct (allowed_file (secure_filename f)) eqn:Ha; [|by exists st].
        simpl. destruct (read_file f) as [e|df] eqn:Hr; [by exists st|].
        pose proof (ingest_agrees E clock df (Raising.rows w)
                                  (Raising.saved w) (qrcodes st)) as Hagree.
        simpl in Hagree.
        destruct (Raising.ingest E clock df (Raising.rows w)
                                 (Raising.saved w) 0)
          as [tbl1 disk1 c1|disk1]; [|by exists st].
        exists (step st (ReqUpload true POST (Some f) clock)).
        split; [by apply reachable_step|].
        destruct Hagree as (-> & _). simpl.
        unfold step, handle, upload.
        rewrite login_required_admin, (upload_view_valid f df) by done.
        simpl. rewrite <- Htbl. by destruct st.
      + destruct admin; [|by exists st].
        unfold Raising.api_approve_view, Raising.query_get.
        destruct (Raising.sqlite_integer rec_id); [|by exists st].
        destruct (query_get rec_id (Raising.rows w)); [|by exists st].
        exists (step st (ReqApprove true rec_id now)).
        split; [by apply reachable_step|].
        rewrite approve_step. simpl. by rewrite Htbl. }
  split; [done|]. destruct H as (st & Hst & <-).
  destruct (reachable_unique_keys st Hst) as [Hr Hi].
  split; [done|]. split; [done|]. intros r Hin.
  pose proof (reachable_shape st Hst) as Hshape.
  pose proof (reachable_regno st Hst) as Hregno.
  rewrite Forall_forall in Hshape, Hregno.
  split; [by apply Hshape|by apply Hregno].
Qed.

(** * The worked example, continued *)

Lemma good_form_logs_in_and_bad_form_does_not :
  Session.admin (session (admin_login scenario_env anonymous POST good_form))
  = true
  /\ flashed (admin_login scenario_env anonymous POST bad_form)
     = Some ("danger", "Invalid credentials").
Proof.
  split.
  - apply (proj1 (admin_login_grants_admin_iff_credentials
                    scenario_env anonymous POST good_form)).
    right. split; vm_compute; reflexivity.
  - apply (proj2 (proj2 (proj2 (admin_login_grants_admin_iff_credentials
                                  scenario_env anonymous POST bad_form)))).
    split; [reflexivity|]. split; [reflexivity|].
    intros [_ H]. vm_compute in H. discriminate.
Defined.

Lemma guesses_do_not_post_credentials :
  Forall (fun c => ~ posts_credentials scenario_env c)
         [CallApprove 1 2000; CallLogin POST bad_form;
          CallUpload POST (Some scenario_file) scenario_clock].
Proof.
  constructor; [intros []|].
  constructor; [intros [_ Hpass]; vm_compute in Hpass; discriminate|].
  constructor; [intros []|constructor].
Defined.

Lemma guessing_changes_nothing :
  serve_all scenario_env
            [CallApprove 1 2000; CallLogin POST bad_form;
             CallUpload POST (Some scenario_file) scenario_clock]
            anonymous after_upload
  = (anonymous, after_upload)
  /\ serve_all scenario_env
               [CallLogout; CallApprove 1 2000; CallLogin POST bad_form;
                CallUpload POST (Some scenario_file) scenario_clock]
               (Session.mk true) after_upload
     = (Session.mk false, after_upload).
Proof.
  split.
  - apply (proj1 (calls_without_credentials_change_nothing
                    scenario_env _ anonymous after_upload
                    guesses_do_not_post_credentials)).
    reflexivity.
  - apply (proj2 (calls_without_credentials_change_nothing
                    scenario_env _ (Session.mk true) after_upload
                    guesses_do_not_post_credentials)).
Defined.

Lemma approval_by_admin_changes_the_store :
  Session.admin (Session.mk true) = true
  /\ ((exists f df clock,
         CallApprove 1 2000 = CallUpload POST (Some f) clock
         /\ valid_upload f df)
      \/ (exists rec_id now rec,
            CallApprove 1 2000 = CallApprove rec_id now
            /\ query_get rec_id (table after_upload) = Some rec)).
Proof.
  apply (store_changes_only_by_upload_or_approval
           scenario_env (CallApprove 1 2000) (Session.mk true) after_upload).
  intros H. apply (f_equal (fun s => Registration.status <$> table s)) in H.
  vm_compute in H. discriminate.
Defined.

Lemma scenario_upload_succeeds_and_get_is_inert :
  (exists to msg w',
     Raising.upload_view scenario_environment POST (Some scenario_file)
                         scenario_clock empty_world
     = (Answer (Redirect to (Some ("success", msg))), w'))
  /\ (Raising.upload_view scenario_environment GET (Some scenario_file)
                          scenario_clock empty_world).2
     = empty_world
  /\ Raising.rows (Raising.upload_view scenario_environment POST
                                       (Some slash_file) scenario_clock
                                       empty_world).2
     = Raising.rows empty_world.
Proof.
  pose proof (upload_succeeds_iff_valid_and_saved
                scenario_environment POST (Some scenario_file)
                scenario_clock empty_world) as (H1 & _ & _).
  pose proof (upload_succeeds_iff_valid_and_saved
                scenario_environment GET (Some scenario_file)
                scenario_clock empty_world) as (_ & H2 & _).
  pose proof (upload_succeeds_iff_valid_and_saved
                scenario_environment POST (Some slash_file)
                scenario_clock empty_world) as (_ & _ & H3).
  split; [|split].
  - apply H1. split; [reflexivity|]. exists scenario_file, scenario_rows.
    split; [reflexivity|]. split; [exact scenario_is_valid|].
    intros k r Hk. destruct k as [|k]; vm_compute in Hk; [|discriminate].
    injection Hk as <-. vm_compute; reflexivity.
  - apply H2. intros [H _]. discriminate.
  - apply H3. vm_compute; reflexivity.
Defined.

Lemma alice_keeps_her_fields :
  exists r', table (run [ReqApprove true 1 2000] after_upload) !! 0%nat
             = Some r'
    /\ Registration.id r' = Registration.id alice
    /\ Registration.regno r' = Registration.regno alice
    /\ Registration.data r' = Registration.data alice
    /\ Registration.created_at r' = Registration.created_at alice.
Proof.
  apply (stored_fields_never_change
           [ReqApprove true 1 2000] after_upload 0 alice).
  by rewrite after_upload_table.
Defined.

Lemma alice_is_in_after_upload : alice ∈ table after_upload.
Proof. rewrite after_upload_table. left. Defined.

Lemma alice_data_is_text :
  (forall k v, Registration.data alice !! k = Some v ->
               Py.is_temporal v = false)
  /\ to_text <$> Registration.data alice = Registration.data alice
  /\ Registration.regno alice = regno_of (Registration.data alice).
Proof.
  exact (stored_data_is_text_and_resolves_to_regno
           after_upload alice after_upload_reachable alice_is_in_after_upload).
Defined.

Lemma world_after_upload_reachable :
  Raising.reachable scenario_environment world_after_upload.
Proof.
  unfold world_after_upload, empty_world.
  apply Raising.reachable_step, Raising.reachable_init.
Defined.

Lemma alice_has_had_her_image_saved :
  ("/srv/app/static/qrcodes/A1.png", "A1") ∈ Raising.saved world_after_upload.
Proof.
  apply (every_record_has_had_its_image_saved
           scenario_environment world_after_upload alice
           world_after_upload_reachable).
  rewrite world_after_upload_rows. left.
Defined.

Lemma counts_after_approval_add_up :
  (count (filter_by_status "pending" (table after_approval))
   + count (filter_by_status "approved" (table after_approval)))%nat
  = length (table after_approval).
Proof.
  exact (dashboard_counts_add_up after_approval after_approval_reachable).
Defined.

Lemma approving_alice_moves_one_record :
  (count (filter_by_status "pending" (table after_approval)) + 1)%nat
  = count (filter_by_status "pending" (table after_upload))
  /\ count (filter_by_status "approved" (table after_approval))
     = (count (filter_by_status "approved" (table after_upload)) + 1)%nat.
Proof.
  apply (proj1 (approval_moves_one_record_between_counts
                  after_upload 1 2000 alice after_upload_reachable
                  ltac:(vm_compute; reflexivity))).
  reflexivity.
Defined.

Lemma approvals_of_1_and_2_commute :
  step (step after_upload (ReqApprove true 1 2000)) (ReqApprove true 2 2001)
  = step (step after_upload (ReqApprove true 2 2001)) (ReqApprove true 1 2000).
Proof.
  apply (proj1 (approvals_commute_and_the_last_stamp_wins
                  after_upload 1 2 2000 2001)).
  lia.
Defined.


Lemma lookup_of_A1_after_the_scenario :
  exists i row rec,
    identifiers scenario_rows !! i = Some "A1"
    /\ ("A1" ∉ take i (identifiers scenario_rows))
    /\ scenario_rows !! i = Some row
    /\ (api_get_by_regno true "A1" (Raising.as_store world_after_upload)).1
       = Json 200 [("id", JV (Py.VInt (Registration.id rec)));
                   ("data", JDict (to_text <$> row));
                   ("status", JV (Py.VStr "pending"))].
Proof.
  destruct (lookup_after_upload
              scenario_environment scenario_file scenario_rows scenario_clock
              empty_world world_after_upload _ "A1"
              scenario_is_valid scenario_upload_is_answered) as [_ H].
  apply H.
  - discriminate.
  - apply not_elem_of_nil.
  - vm_compute. left.
  - discriminate.
Defined.

Lemma scenario_count_is_the_growth :
  ((ingest scenario_clock scenario_rows empty_store).2 <= 3)%nat
  /\ length (table (ingest scenario_clock scenario_rows empty_store).1)
     = (0 + (ingest scenario_clock scenario_rows empty_store).2)%nat.
Proof.
  destruct (upload_count_is_the_growth_of_the_table
              scenario_clock scenario_rows empty_store) as (H1 & H2 & _).
  split; [exact H1|exact H2].
Defined.

Lemma dashboard_after_upload_lists_alice :
  exists recent,
    admin_dashboard true after_upload
    = (Render "admin_dashboard.html"
              [("pending_count", 1%nat); ("approved_count", 0%nat)] recent,
       after_upload)
    /\ length recent = 1%nat.
Proof.
  destruct (dashboard_lists_the_newest_pending after_upload)
    as (recent & H1 & H2 & _).
  exists recent. split; [exact H1|exact H2].
Defined.

Lemma list_CSV_is_allowed :
  (exists stem ext,
     Py.lower "list.CSV" = stem +:+ ext /\ stem <> "" /\ ext ∈ ALLOWED_EXT)
  /\ allowed_file "list.CSV" = true.
Proof.
  pose proof (allowed_file_is_a_stem_and_an_allowed_extension "list.CSV")
    as (H1 & H2 & _).
  split.
  - apply H1. vm_compute; reflexivity.
  - apply (H2 "list" ".csv").
    + reflexivity.
    + apply elem_of_ALLOWED_EXT. auto.
    + reflexivity.
    + reflexivity.
Defined.

Lemma scenario_file_goes_to_the_csv_reader :
  ((OsPath.splitext (Py.lower (secure_filename scenario_file))).2 = ".csv"
   /\ read_file scenario_file = read_csv scenario_file)
  \/ (((OsPath.splitext (Py.lower (secure_filename scenario_file))).2 = ".xlsx"
       \/ (OsPath.splitext (Py.lower (secure_filename scenario_file))).2
          = ".xls")
      /\ read_file scenario_file = read_excel scenario_file).
Proof.
  apply (reader_follows_the_extension scenario_file).
  vm_compute; reflexivity.
Defined.

Lemma fallback_credentials_log_in :
  admin_login scenario_env (Session.mk false) POST good_form
  = Outcome (Some ("success", "Logged in as admin"))
            (Redirect (UrlFor "admin_dashboard" None)
                      (Some ("success", "Logged in as admin")))
            (Session.mk true).
Proof.
  apply (unset_environment_accepts_the_fallback_credentials
           scenario_env good_form); vm_compute; reflexivity.
Defined.

Lemma world_after_upload_is_well_formed :
  (exists st, reachable st /\ table st = Raising.rows world_after_upload)
  /\ NoDup (Registration.regno <$> Raising.rows world_after_upload).
Proof.
  destruct (tables_with_raising_calls_are_reachable
              scenario_environment world_after_upload
              world_after_upload_reachable) as (H1 & H2 & _).
  split; [exact H1|exact H2].
Defined.

Lemma seat_holder_and_name_holder_differ :
  Registration.regno seat_holder <> Registration.regno name_holder
  /\ Registration.id seat_holder <> Registration.id name_holder.
Proof.
  apply (two_records_differ_in_regno_and_id
           two_approved 0 1 seat_holder name_holder two_approved_reachable).
  - vm_compute; reflexivity.
  - vm_compute; reflexivity.
  - lia.
Defined.

Lemma alice_data_uploaded_again_adds_nothing :
  ingest scenario_clock (Registration.data <$> table after_upload) after_upload
  = (after_upload, 0%nat).
Proof.
  exact (stored_data_uploaded_again_adds_nothing
           after_upload scenario_clock after_upload_reachable).
Defined.

Lemma lookup_of_A1_after_approval :
  (api_get_by_regno true (Registration.regno alice) after_approval).1
  = Json 200 [("id", JV (Py.VInt (Registration.id alice)));
              ("data", JDict (Registration.data alice));
              ("status", JV (Py.VStr "approved"))].
Proof.
  apply (proj1 (lookup_after_approval after_upload 1 2000 alice
                  after_upload_reachable ltac:(vm_compute; reflexivity))).
Defined.
